(** * EcoCommute: the ride coordination core of [rides/models.py] and
    [rides/views.py], embedded as functions on an explicit database state.

    The Django ORM is read as a store: one finite map per table keyed by
    primary key (or by the one-to-one owner), and the join table as a list in
    primary-key order.  A view is a function from a request and a database
    to a response, the flashed messages and the database it leaves behind. *)

From Stdlib Require Import ZArith String Ascii List Bool Lia.
From Corelib Require Import PrimFloat.
From Stdlib Require Import Uint63.
From stdpp Require Import gmap strings list fin_maps.

Local Open Scope string_scope.
Local Open Scope Z_scope.

(** ** Python string helpers used by the views *)

Module PyStr.

(** A [str] is held as its UTF-8 encoding, one [ascii] per byte.

    [str.strip()] removes the characters [str.isspace] accepts.  Those of
    one byte: tab, line feed, vertical tab, form feed, carriage return, the
    four separators 28-31, space. *)
Definition isspace (a : ascii) : bool :=
  let n := nat_of_ascii a in
  ((9 <=? n) && (n <=? 13) || (28 <=? n) && (n <=? 32))%nat.

(** Those of two bytes: U+0085 (C2 85) and U+00A0 (C2 A0). *)
Definition isspace2 (a b : ascii) : bool :=
  let a := nat_of_ascii a in
  let b := nat_of_ascii b in
  ((a =? 194) && ((b =? 133) || (b =? 160)))%nat.

(** Those of three bytes: U+1680 (E1 9A 80), U+2000 to U+200A (E2 80 80 to
    E2 80 8A), U+2028, U+2029 and U+202F (E2 80 A8, A9, AF), U+205F
    (E2 81 9F), U+3000 (E3 80 80). *)
Definition isspace3 (a b c : ascii) : bool :=
  let a := nat_of_ascii a in
  let b := nat_of_ascii b in
  let c := nat_of_ascii c in
  ((a =? 225) && (b =? 154) && (c =? 128)
   || (a =? 226) && (b =? 128)
      && ((128 <=? c) && (c <=? 138) || (c =? 168) || (c =? 169) || (c =? 175))
   || (a =? 226) && (b =? 129) && (c =? 159)
   || (a =? 227) && (b =? 128) && (c =? 128))%nat.

Fixpoint lstrip (s : string) : string :=
  match s with
  | EmptyString => EmptyString
  | String a s1 =>
      if isspace a then lstrip s1 else
      match s1 with
      | EmptyString => s
      | String b s2 =>
          if isspace2 a b then lstrip s2 else
          match s2 with
          | EmptyString => s
          | String c s3 => if isspace3 a b c then lstrip s3 else s
          end
      end
  end.

(** Nothing but white space. *)
Definition allspace (s : string) : bool :=
  match lstrip s with EmptyString => true | _ => false end.

(** [str.rstrip()]: cut where nothing but white space follows. *)
Fixpoint rstrip (s : string) : string :=
  match s with
  | EmptyString => EmptyString
  | String a s' => if allspace s then EmptyString else String a (rstrip s')
  end.

Definition strip (s : string) : string := rstrip (lstrip s).

(** [str.lower] and [str.upper] on the letters of ASCII; the bytes of every
    other character are kept.  The views lower-case a field only to compare
    it with ['true'], and no character outside ASCII lower-cases into a
    letter of that word. *)
Definition lower_char (a : ascii) : ascii :=
  let n := nat_of_ascii a in
  if ((65 <=? n) && (n <=? 90))%nat then ascii_of_nat (n + 32) else a.

Definition upper_char (a : ascii) : ascii :=
  let n := nat_of_ascii a in
  if ((97 <=? n) && (n <=? 122))%nat then ascii_of_nat (n - 32) else a.

Fixpoint map_chars (f : ascii -> ascii) (s : string) : string :=
  match s with
  | EmptyString => EmptyString
  | String a s' => String (f a) (map_chars f s')
  end.

Definition lower : string -> string := map_chars lower_char.
Definition upper : string -> string := map_chars upper_char.

(** Truth value of a string: empty is false. *)
Definition truthy (s : string) : bool :=
  match s with EmptyString => false | _ => true end.

(** Truth value of [dict.get(key)]: [None] and the empty string are false. *)
Definition truthy_opt (o : option string) : bool :=
  match o with Some s => truthy s | None => false end.

End PyStr.

(** ** models.py *)

(** [int -> float] as Python converts an operand of mixed arithmetic
    (exact below 2^53, which covers seat counts and emission factors). *)
Definition float_of_Z (z : Z) : float :=
  if z <? 0 then PrimFloat.opp (PrimFloat.of_uint63 (Uint63.of_Z (- z)))
  else PrimFloat.of_uint63 (Uint63.of_Z z).

(** [EMISSION_FACTORS], grams of CO2 per km. *)
Definition EMISSION_FACTORS : gmap string Z :=
  <["car_petrol" := 120]> (<["bike" := 0]> ∅).

Inductive RideStatus : Set := created | started | completed.

#[global] Instance RideStatus_eq_dec : EqDecision RideStatus.
Proof. solve_decision. Defined.

(** Primary keys. *)
Abbreviation UserId := Z.
Abbreviation RideId := Z.

(** [User] together with its one-to-one [UserProfile]; only the columns the
    coordination views read. *)
Record User : Type := mkUser {
  email : string;
  aadhaar_verified : bool
}.

(** [Ride].  [ride_date] is a day number and [ride_time] a minute of the
    day: the views only parse and store them. *)
Record Ride : Type := mkRide {
  from_location : string;
  to_location : string;
  ride_date : Z;
  ride_time : Z;
  vehicle_type : string;
  vehicle_number : string;
  distance_km : float;
  total_seats : Z;
  seats_available : Z;
  creator : UserId;
  driver_started : bool;
  passenger_started : bool;
  driver_ended : bool;
  passenger_ended : bool;
  ride_status : RideStatus
}.

(** [RidePassenger]: the join record, [unique_together = (user, ride)]. *)
Record RidePassenger : Type := mkRidePassenger {
  rp_user : UserId;
  rp_ride : RideId;
  pickup_point : string;
  pickup_notes : string
}.

(** [LiveLocation]: one row per user ([OneToOneField]), so the table is a
    map keyed by the user. *)
Record LiveLocation : Type := mkLiveLocation {
  ll_ride : RideId;
  latitude : float;
  longitude : float;
  updated_at : Z;
  is_sharing : bool
}.

(** Field assignments on a loaded [Ride] instance. *)
Definition set_seats_available (n : Z) (r : Ride) : Ride :=
  mkRide (from_location r) (to_location r) (ride_date r) (ride_time r)
    (vehicle_type r) (vehicle_number r) (distance_km r) (total_seats r) n
    (creator r) (driver_started r) (passenger_started r) (driver_ended r)
    (passenger_ended r) (ride_status r).

Definition set_vehicle_number (v : string) (r : Ride) : Ride :=
  mkRide (from_location r) (to_location r) (ride_date r) (ride_time r)
    (vehicle_type r) v (distance_km r) (total_seats r) (seats_available r)
    (creator r) (driver_started r) (passenger_started r) (driver_ended r)
    (passenger_ended r) (ride_status r).

Definition set_driver_started (b : bool) (r : Ride) : Ride :=
  mkRide (from_location r) (to_location r) (ride_date r) (ride_time r)
    (vehicle_type r) (vehicle_number r) (distance_km r) (total_seats r)
    (seats_available r) (creator r) b (passenger_started r) (driver_ended r)
    (passenger_ended r) (ride_status r).

Definition set_passenger_started (b : bool) (r : Ride) : Ride :=
  mkRide (from_location r) (to_location r) (ride_date r) (ride_time r)
    (vehicle_type r) (vehicle_number r) (distance_km r) (total_seats r)
    (seats_available r) (creator r) (driver_started r) b (driver_ended r)
    (passenger_ended r) (ride_status r).

Definition set_driver_ended (b : bool) (r : Ride) : Ride :=
  mkRide (from_location r) (to_location r) (ride_date r) (ride_time r)
    (vehicle_type r) (vehicle_number r) (distance_km r) (total_seats r)
    (seats_available r) (creator r) (driver_started r) (passenger_started r) b
    (passenger_ended r) (ride_status r).

Definition set_passenger_ended (b : bool) (r : Ride) : Ride :=
  mkRide (from_location r) (to_location r) (ride_date r) (ride_time r)
    (vehicle_type r) (vehicle_number r) (distance_km r) (total_seats r)
    (seats_available r) (creator r) (driver_started r) (passenger_started r)
    (driver_ended r) b (ride_status r).

Definition set_ride_status (s : RideStatus) (r : Ride) : Ride :=
  mkRide (from_location r) (to_location r) (ride_date r) (ride_time r)
    (vehicle_type r) (vehicle_number r) (distance_km r) (total_seats r)
    (seats_available r) (creator r) (driver_started r) (passenger_started r)
    (driver_ended r) (passenger_ended r) s.

(** The database: the four tables and the [Ride] id sequence. *)
Record DB : Type := mkDB {
  users : gmap Z User;
  rides : gmap Z Ride;
  next_ride_id : Z;
  passengers : list RidePassenger;
  live_locations : gmap Z LiveLocation
}.

Definition set_rides (m : gmap Z Ride) (db : DB) : DB :=
  mkDB (users db) m (next_ride_id db) (passengers db) (live_locations db).

Definition set_passengers (l : list RidePassenger) (db : DB) : DB :=
  mkDB (users db) (rides db) (next_ride_id db) l (live_locations db).

Definition set_live_locations (m : gmap Z LiveLocation) (db : DB) : DB :=
  mkDB (users db) (rides db) (next_ride_id db) (passengers db) m.

(** [Ride.occupant_count]. *)
Definition occupant_count (r : Ride) : Z :=
  let used_seats := total_seats r - seats_available r in
  Z.max used_seats 1.

(** [Ride.save]: upper-cases a non-empty vehicle number, then writes the
    row under the instance's primary key. *)
Definition Ride_save (ride_id : RideId) (r : Ride) (db : DB) : Ride * DB :=
  let r' := if PyStr.truthy (vehicle_number r)
            then set_vehicle_number (PyStr.upper (vehicle_number r)) r else r in
  (r', set_rides (<[ride_id := r']> (rides db)) db).

(** [Ride.check_and_update_status], on a loaded instance: the new instance,
    the database after any save, and the returned value. *)
Definition check_and_update_status (ride_id : RideId) (r : Ride) (db : DB)
  : Ride * DB * option RideStatus :=
  if driver_started r && passenger_started r
     && bool_decide (ride_status r = created) then
    let '(r', db') := Ride_save ride_id (set_ride_status started r) db in
    (r', db', Some started)
  else if driver_ended r && passenger_ended r
          && bool_decide (ride_status r = started) then
    let '(r', db') := Ride_save ride_id (set_ride_status completed r) db in
    (r', db', Some completed)
  else (r, db, None).

(** ** views.py: the emission calculator *)

(** [calculate_co2(distance_km, vehicle_type, occupants)]. *)
Definition calculate_co2 (distance_km : float) (vehicle_type : string)
    (occupants : Z) : float * float * float :=
  let factor := default (EMISSION_FACTORS !!! "car_petrol")
                        (EMISSION_FACTORS !! vehicle_type) in
  let solo_kg := PrimFloat.div (PrimFloat.mul distance_km (float_of_Z factor))
                               (float_of_Z 1000) in
  let occupants := Z.max occupants 1 in
  let shared_kg := PrimFloat.div solo_kg (float_of_Z occupants) in
  let saved_per_user := PrimFloat.sub solo_kg shared_kg in
  (solo_kg, shared_kg, saved_per_user).

(** The figures [dashboard] shows for one ride. *)
Definition ride_co2 (r : Ride) : float * float * float :=
  calculate_co2 (distance_km r) (vehicle_type r) (occupant_count r).

(** ** views.py: requests, responses and decorators *)

Inductive Method : Set := GET | POST | OTHER.

#[global] Instance Method_eq_dec : EqDecision Method.
Proof. solve_decision. Defined.

(** A request: the method, the session's user (if any), the posted form
    and the clock reading [auto_now] will store. *)
Record Request : Type := mkRequest {
  method : Method;
  session_user : option UserId;
  form : gmap string string;
  now : Z
}.

(** [django.contrib.messages] levels. *)
Inductive Level : Set := INFO | SUCCESS | WARNING | ERROR.

Inductive JsonValue : Type :=
| JStr (s : string)
| JBool (b : bool)
| JInt (n : Z)
| JFloat (x : float).

Inductive Response : Type :=
| redirect (to : string) (arg : option Z)
| render (template : string) (ride : option RideId)
| JsonResponse (body : list (string * JsonValue)) (status : Z)
| Http404
| HttpResponseNotAllowed
| ServerError (exception : string).

(** What a view leaves behind. *)
Record Outcome : Type := mkOutcome {
  response : Response;
  flashed : list (Level * string);
  db_after : DB
}.

Definition View : Type := Request -> DB -> Outcome.

(** [@login_required]: [request.user] is the session's user as stored. *)
Definition login_required (view : UserId -> User -> View) : View :=
  fun req db =>
    match session_user req ≫= (fun uid => pair uid <$> users db !! uid) with
    | Some (uid, u) => view uid u req db
    | None => mkOutcome (redirect "login" None) [] db
    end.

(** [@require_http_methods([...])]. *)
Definition require_http_methods (allowed : list Method) (view : View) : View :=
  fun req db =>
    if bool_decide (method req ∈ allowed) then view req db
    else mkOutcome HttpResponseNotAllowed [] db.

(** [request.POST.get(key, '')]. *)
Definition POST_get (req : Request) (key : string) : string :=
  default "" (form req !! key).

(** ** The [RidePassenger] manager *)

Definition joined (ride_id : RideId) (uid : UserId) (p : RidePassenger) : bool :=
  (rp_ride p =? ride_id) && (rp_user p =? uid).

(** [RidePassenger.objects.filter(ride=ride, user=user).exists()]. *)
Definition passenger_exists (ride_id : RideId) (uid : UserId) (db : DB) : bool :=
  existsb (joined ride_id uid) (passengers db).

(** [RidePassenger.objects.filter(ride=ride, user=user).first()]. *)
Definition passenger_first (ride_id : RideId) (uid : UserId) (db : DB)
  : option RidePassenger :=
  find (joined ride_id uid) (passengers db).

(** [passenger.delete()] for the row [first()] returned: the first match. *)
Fixpoint remove_first (f : RidePassenger -> bool) (l : list RidePassenger)
  : list RidePassenger :=
  match l with
  | [] => []
  | p :: l' => if f p then l' else p :: remove_first f l'
  end.

(** [ride.passengers.count()]. *)
Fixpoint passenger_count (ride_id : RideId) (l : list RidePassenger) : Z :=
  match l with
  | [] => 0
  | p :: l' => (if rp_ride p =? ride_id then 1 else 0) + passenger_count ride_id l'
  end.

(** [RidePassenger.objects.create(...)]: the unique constraint on
    (user, ride) rejects a second row ([IntegrityError]). *)
Definition RidePassenger_create (p : RidePassenger) (db : DB) : option DB :=
  if passenger_exists (rp_ride p) (rp_user p) db then None
  else Some (set_passengers (passengers db ++ [p]) db).

(** [LiveLocation.objects.update_or_create(user=..., defaults=...)]: the
    one row of the user is overwritten, or created.  The table is the one
    Django makes on SQLite, its default backend: a NaN is bound as NULL,
    which the NOT NULL columns [latitude] and [longitude] refuse
    ([IntegrityError], naming the first such column), and the statement
    writes nothing. *)
Definition LiveLocation_update_or_create (uid : UserId) (l : LiveLocation) (db : DB)
  : DB + string :=
  if PrimFloat.is_nan (latitude l) then
    inr "NOT NULL constraint failed: rides_livelocation.latitude"
  else if PrimFloat.is_nan (longitude l) then
    inr "NOT NULL constraint failed: rides_livelocation.longitude"
  else inl (set_live_locations (<[uid := l]> (live_locations db)) db).

(** What the store refuses of a new ride, by the exception raised.  The
    table is again the one Django makes on SQLite: an integer outside 64
    bits cannot be bound ([OverflowError]), and a NaN distance, bound as
    NULL, breaks the NOT NULL constraint of [distance_km]
    ([IntegrityError]). *)
Definition Ride_create_error (r : Ride) : option string :=
  if negb ((total_seats r <? 2 ^ 63) && (- 2 ^ 63 <=? total_seats r)
           && (seats_available r <? 2 ^ 63) && (- 2 ^ 63 <=? seats_available r))
  then Some "OverflowError"
  else if PrimFloat.is_nan (distance_km r) then Some "IntegrityError"
  else None.

(** [Ride.objects.create(...)]: the next id of the sequence. *)
Definition Ride_create (r : Ride) (db : DB) : Ride * DB :=
  let '(r', db') := Ride_save (next_ride_id db) r db in
  (r', mkDB (users db') (rides db') (next_ride_id db + 1) (passengers db')
            (live_locations db')).

(** ** views.py: the coordination views *)

Section Views.

(** Python's parsers, which the views call on posted text: [float(s)],
    [int(s)], and [datetime.strptime] for the date and the time format.
    [None] stands for the [ValueError] they raise. *)
Variable float_of_string : string -> option float.
Variable int_of_string : string -> option Z.
Variable strptime_date : string -> option Z.
Variable strptime_time : string -> option Z.

Definition reply (resp : Response) (msgs : list (Level * string)) (db : DB)
  : Outcome := mkOutcome resp msgs db.

(** [create_ride].  Nothing in the view catches what
    [Ride.objects.create] raises: the request ends in a server error and no
    ride is stored. *)
Definition create_ride : View := login_required (fun uid u req db =>
  if negb (aadhaar_verified u) then
    reply (redirect "aadhaar_verification_start" None)
         [(WARNING, "Please verify your Aadhaar to create rides.")] db
  else if bool_decide (method req = POST) then
    let parsed :=
      d ← form req !! "ride_date" ≫= strptime_date;
      t ← form req !! "ride_time" ≫= strptime_time;
      km ← form req !! "distance_km" ≫= float_of_string;
      n ← form req !! "total_seats" ≫= int_of_string;
      Some (d, t, km, n) in
    match parsed with
    | None =>
        reply (redirect "create_ride" None)
             [(ERROR, "Please provide valid ride details.")] db
    | Some (ride_date, ride_time, distance_km, total_seats) =>
        let vehicle_type := default "car_petrol" (form req !! "vehicle_type") in
        let from_location := PyStr.strip (POST_get req "from_location") in
        let to_location := PyStr.strip (POST_get req "to_location") in
        let vehicle_number := PyStr.strip (POST_get req "vehicle_number") in
        if negb (PyStr.truthy vehicle_number) then
          reply (redirect "create_ride" None)
               [(ERROR, "Vehicle number is required.")] db
        else if total_seats <? 1 then
          reply (redirect "create_ride" None)
               [(WARNING, "Total seats must be at least 1.")] db
        else
          let seats_available := Z.max (total_seats - 1) 0 in
          let ride :=
            mkRide from_location to_location ride_date ride_time
              vehicle_type vehicle_number distance_km total_seats
              seats_available uid false false false false created in
          match Ride_create_error ride with
          | Some e => reply (ServerError e) [] db
          | None =>
              let '(_, db') := Ride_create ride db in
              reply (redirect "rides_list" None) [(SUCCESS, "Ride created.")] db'
          end
    end
  else reply (render "rides/create_ride.html" None) [] db).

(** [join_ride].  The notification mail to the creator is sent with
    [fail_silently] inside a [try] that swallows every exception; it
    touches no table and is left out. *)
Definition join_ride (ride_id : RideId) : View := login_required (fun uid u req db =>
  if negb (aadhaar_verified u) then
    reply (redirect "aadhaar_verification_start" None)
         [(WARNING, "Please verify your Aadhaar to join rides.")] db
  else
    match rides db !! ride_id with
    | None => reply Http404 [] db
    | Some ride =>
        if bool_decide (method req = POST) then
          if bool_decide (creator ride = uid) then
            reply (redirect "rides_list" None)
                 [(INFO, "You are the driver for this ride.")] db
          else if seats_available ride <=? 0 then
            reply (redirect "rides_list" None)
                 [(WARNING, "No seats available.")] db
          else if passenger_exists ride_id uid db then
            reply (redirect "rides_list" None)
                 [(INFO, "You have already joined this ride.")] db
          else
            let pickup_point := PyStr.strip (POST_get req "pickup_point") in
            let pickup_notes := PyStr.strip (POST_get req "pickup_notes") in
            if negb (PyStr.truthy pickup_point) then
              reply (render "rides/join_ride.html" (Some ride_id))
                   [(ERROR, "Please enter a pickup point.")] db
            else
              let ride := set_seats_available (seats_available ride - 1) ride in
              let '(ride, db1) := Ride_save ride_id ride db in
              match RidePassenger_create
                      (mkRidePassenger uid ride_id pickup_point pickup_notes) db1 with
              | None => reply (ServerError "IntegrityError") [] db1
              | Some db2 =>
                  reply (redirect "rides_list" None)
                       [(SUCCESS, "Joined ride successfully!")] db2
              end
        else reply (render "rides/join_ride.html" (Some ride_id)) [] db
    end).

(** The body shared, statement for statement, by [cancel_ride] and
    [leave_ride]; they differ in the page they redirect to. *)
Definition leave_body (back : string) (ride_id : RideId) : View :=
  login_required (fun uid u req db =>
    if bool_decide (method req = POST) then
      match rides db !! ride_id with
      | None => reply Http404 [] db
      | Some ride =>
          match passenger_first ride_id uid db with
          | None =>
              reply (redirect back None)
                   [(WARNING, "You have not joined this ride.")] db
          | Some passenger =>
              let db1 := set_passengers
                           (remove_first (joined ride_id uid) (passengers db)) db in
              let ride := set_seats_available (seats_available ride + 1) ride in
              let '(ride, db2) := Ride_save ride_id ride db1 in
              reply (redirect back None)
                   [(SUCCESS, "You have left the ride.")] db2
          end
      end
    else reply (redirect back None) [] db).

(** [cancel_ride]: leave from the dashboard. *)
Definition cancel_ride : RideId -> View := leave_body "dashboard".

(** [leave_ride]: leave from the rides list. *)
Definition leave_ride : RideId -> View := leave_body "rides_list".

(** *** Two-side confirmation views *)

Definition json_error (msg : string) (status : Z) : Response :=
  JsonResponse [("error", JStr msg)] status.

(** [driver_start_ride]. *)
Definition driver_start_ride (ride_id : RideId) : View :=
  login_required (fun uid u => require_http_methods [POST] (fun req db =>
    match rides db !! ride_id with
    | None => reply Http404 [] db
    | Some ride =>
        if negb (bool_decide (creator ride = uid)) then
          reply (json_error "Only the driver can start the ride" 403) [] db
        else if negb (bool_decide (ride_status ride = created)) then
          reply (json_error "Ride has already been started or completed" 400) [] db
        else if driver_started ride then
          reply (json_error "You have already confirmed the start" 400) [] db
        else
          let ride := set_driver_started true ride in
          let '(ride, db1) := Ride_save ride_id ride db in
          let '(ride, db2, status_changed) :=
            check_and_update_status ride_id ride db1 in
          if bool_decide (status_changed = Some started) then
            reply (redirect "ride_detail" (Some ride_id))
                  [(SUCCESS, "🚗 Ride started! Location sharing is now enabled.")] db2
          else
            reply (redirect "ride_detail" (Some ride_id))
                  [(INFO, "✅ You confirmed the start. Waiting for passenger confirmation.")] db2
    end)).

(** [passenger_confirm_start]. *)
Definition passenger_confirm_start (ride_id : RideId) : View :=
  login_required (fun uid u => require_http_methods [POST] (fun req db =>
    match rides db !! ride_id with
    | None => reply Http404 [] db
    | Some ride =>
        match passenger_first ride_id uid db with
        | None =>
            reply (json_error "Only passengers can confirm the start" 403) [] db
        | Some passenger =>
            if negb (bool_decide (ride_status ride = created)) then
              reply (json_error "Ride has already been started or completed" 400) [] db
            else if passenger_started ride then
              reply (json_error "You have already confirmed the start" 400) [] db
            else
              let ride := set_passenger_started true ride in
              let '(ride, db1) := Ride_save ride_id ride db in
              let '(ride, db2, status_changed) :=
                check_and_update_status ride_id ride db1 in
              if bool_decide (status_changed = Some started) then
                reply (redirect "ride_detail" (Some ride_id))
                      [(SUCCESS, "🚗 Ride started! You can now share your location.")] db2
              else
                reply (redirect "ride_detail" (Some ride_id))
                      [(INFO, "✅ You confirmed the start. Waiting for driver confirmation.")] db2
        end
    end)).

(** [driver_end_ride]. *)
Definition driver_end_ride (ride_id : RideId) : View :=
  login_required (fun uid u => require_http_methods [POST] (fun req db =>
    match rides db !! ride_id with
    | None => reply Http404 [] db
    | Some ride =>
        if negb (bool_decide (creator ride = uid)) then
          reply (json_error "Only the driver can end the ride" 403) [] db
        else if negb (bool_decide (ride_status ride = started)) then
          reply (json_error "Ride must be started before it can be ended" 400) [] db
        else if driver_ended ride then
          reply (json_error "You have already confirmed the end" 400) [] db
        else
          let ride := set_driver_ended true ride in
          let '(ride, db1) := Ride_save ride_id ride db in
          let '(ride, db2, status_changed) :=
            check_and_update_status ride_id ride db1 in
          if bool_decide (status_changed = Some completed) then
            reply (redirect "ride_detail" (Some ride_id))
                  [(SUCCESS, "🏁 Ride completed! Thank you for carpooling.")] db2
          else
            reply (redirect "ride_detail" (Some ride_id))
                  [(INFO, "✅ You confirmed arrival. Waiting for passenger confirmation.")] db2
    end)).

(** [passenger_confirm_arrival]. *)
Definition passenger_confirm_arrival (ride_id : RideId) : View :=
  login_required (fun uid u => require_http_methods [POST] (fun req db =>
    match rides db !! ride_id with
    | None => reply Http404 [] db
    | Some ride =>
        match passenger_first ride_id uid db with
        | None =>
            reply (json_error "Only passengers can confirm arrival" 403) [] db
        | Some passenger =>
            if negb (bool_decide (ride_status ride = started)) then
              reply (json_error "Ride must be started before it can be ended" 400) [] db
            else if passenger_ended ride then
              reply (json_error "You have already confirmed arrival" 400) [] db
            else
              let ride := set_passenger_ended true ride in
              let '(ride, db1) := Ride_save ride_id ride db in
              let '(ride, db2, status_changed) :=
                check_and_update_status ride_id ride db1 in
              if bool_decide (status_changed = Some completed) then
                reply (redirect "ride_detail" (Some ride_id))
                      [(SUCCESS, "🏁 Ride completed! Thank you for carpooling.")] db2
              else
                reply (redirect "ride_detail" (Some ride_id))
                      [(INFO, "✅ You confirmed arrival. Waiting for driver confirmation.")] db2
        end
    end)).

(** *** Live location views *)

(** [update_location].  The body runs inside [try ... except Exception],
    which turns the [Http404] of [get_object_or_404], the [ValueError] of
    a non-numeric id and the [IntegrityError] of the store into a 500
    answer. *)
Definition update_location : View :=
  login_required (fun uid u => require_http_methods [POST] (fun req db =>
    let ride_id := form req !! "ride_id" in
    let lat := form req !! "latitude" in
    let lon := form req !! "longitude" in
    let sharing :=
      String.eqb (PyStr.lower (default "false" (form req !! "is_sharing"))) "true" in
    if negb (PyStr.truthy_opt ride_id && PyStr.truthy_opt lat
             && PyStr.truthy_opt lon) then
      reply (json_error "Missing required fields" 400) [] db
    else
      match lat ≫= float_of_string, lon ≫= float_of_string with
      | Some lat, Some lon =>
          match ride_id ≫= int_of_string with
          | None =>
              reply (json_error ("Field 'id' expected a number but got '"
                                 ++ default "" ride_id ++ "'.") 500) [] db
          | Some ride_id =>
              match rides db !! ride_id with
              | None =>
                  reply (json_error "No Ride matches the given query." 500) [] db
              | Some ride =>
                  if negb (passenger_exists ride_id uid db) then
                    reply (json_error "User is not a passenger in this ride" 403) [] db
                  else
                    let location :=
                      mkLiveLocation ride_id lat lon (now req) sharing in
                    match LiveLocation_update_or_create uid location db with
                    | inr e => reply (json_error e 500) [] db
                    | inl db1 =>
                        reply (JsonResponse
                                 [("success", JBool true);
                                  ("message", JStr "Location updated successfully");
                                  ("latitude", JFloat (latitude location));
                                  ("longitude", JFloat (longitude location));
                                  ("updated_at", JInt (updated_at location))] 200)
                              [] db1
                    end
              end
          end
      | _, _ => reply (json_error "Invalid coordinates" 400) [] db
      end)).

(** [get_location]. *)
Definition get_location (user_id : UserId) (ride_id : RideId) : View :=
  login_required (fun uid u => require_http_methods [GET] (fun req db =>
    match rides db !! ride_id with
    | None => reply (json_error "No Ride matches the given query." 500) [] db
    | Some ride =>
        if negb (bool_decide (creator ride = uid)) then
          reply (json_error "Only ride creator can view locations" 403) [] db
        else
          match users db !! user_id with
          | None => reply (json_error "No User matches the given query." 500) [] db
          | Some passenger_user =>
              if negb (passenger_exists ride_id user_id db) then
                reply (json_error "User is not a passenger in this ride" 404) [] db
              else
                match live_locations db !! user_id with
                | Some location =>
                    if (ll_ride location =? ride_id) && is_sharing location then
                      reply (JsonResponse
                               [("success", JBool true);
                                ("user_id", JInt user_id);
                                ("user_email", JStr (email passenger_user));
                                ("latitude", JFloat (latitude location));
                                ("longitude", JFloat (longitude location));
                                ("updated_at", JInt (updated_at location))] 200) [] db
                    else
                      reply (json_error "Location not available or sharing disabled" 404)
                            [] db
                | None =>
                    reply (json_error "Location not available or sharing disabled" 404)
                          [] db
                end
          end
    end)).

(** [stop_location_sharing]. *)
Definition stop_location_sharing : View :=
  login_required (fun uid u => require_http_methods [POST] (fun req db =>
    match live_locations db !! uid with
    | Some _ =>
        reply (JsonResponse [("success", JBool true);
                             ("message", JStr "Location sharing stopped")] 200) []
              (set_live_locations (delete uid (live_locations db)) db)
    | None =>
        reply (JsonResponse [("success", JBool true);
                             ("message", JStr "No active location sharing")] 200) [] db
    end)).

(** *** urls.py: the routes of the coordination views *)

Inductive Route : Type :=
| url_create_ride
| url_join_ride (ride_id : RideId)
| url_cancel_ride (ride_id : RideId)
| url_leave_ride (ride_id : RideId)
| url_driver_start_ride (ride_id : RideId)
| url_passenger_confirm_start (ride_id : RideId)
| url_driver_end_ride (ride_id : RideId)
| url_passenger_confirm_arrival (ride_id : RideId)
| url_update_location
| url_get_location (user_id : UserId) (ride_id : RideId)
| url_stop_location_sharing.

Definition urlpatterns (r : Route) : View :=
  match r with
  | url_create_ride => create_ride
  | url_join_ride ride_id => join_ride ride_id
  | url_cancel_ride ride_id => cancel_ride ride_id
  | url_leave_ride ride_id => leave_ride ride_id
  | url_driver_start_ride ride_id => driver_start_ride ride_id
  | url_passenger_confirm_start ride_id => passenger_confirm_start ride_id
  | url_driver_end_ride ride_id => driver_end_ride ride_id
  | url_passenger_confirm_arrival ride_id => passenger_confirm_arrival ride_id
  | url_update_location => update_location
  | url_get_location user_id ride_id => get_location user_id ride_id
  | url_stop_location_sharing => stop_location_sharing
  end.

(** Requests served one after the other. *)
Fixpoint serve (calls : list (Route * Request)) (db : DB) : DB :=
  match calls with
  | [] => db
  | (r, req) :: rest => serve rest (db_after (urlpatterns r req db))
  end.

(** A database holding registered users and nothing else yet. *)
Definition fresh_db (us : gmap Z User) : DB := mkDB us ∅ 1 [] ∅.

(** A form post by a logged-in user. *)
Definition post (uid : UserId) (fields : gmap string string) (clock : Z)
  : Request := mkRequest POST (Some uid) fields clock.

End Views.

(** ** Vocabulary for the lifecycle and capacity statements *)

(** The four confirmation calls of the lifecycle. *)
Inductive Confirmation : Set :=
| confirmDriverStart
| confirmPassengerStart
| confirmDriverEnd
| confirmPassengerEnd.

Definition confirm (c : Confirmation) : RideId -> View :=
  match c with
  | confirmDriverStart => driver_start_ride
  | confirmPassengerStart => passenger_confirm_start
  | confirmDriverEnd => driver_end_ride
  | confirmPassengerEnd => passenger_confirm_arrival
  end.

(** Confirmation calls served one after the other, each on its own ride. *)
Fixpoint confirm_all (calls : list (Confirmation * RideId * Request)) (db : DB)
  : DB :=
  match calls with
  | [] => db
  | (c, ride_id, req) :: rest => confirm_all rest (db_after (confirm c ride_id req db))
  end.

(** The flag a confirmation sets, the status it needs, and who may call it. *)
Definition flag_of (c : Confirmation) (r : Ride) : bool :=
  match c with
  | confirmDriverStart => driver_started r
  | confirmPassengerStart => passenger_started r
  | confirmDriverEnd => driver_ended r
  | confirmPassengerEnd => passenger_ended r
  end.

Definition status_needed (c : Confirmation) : RideStatus :=
  match c with
  | confirmDriverStart | confirmPassengerStart => created
  | confirmDriverEnd | confirmPassengerEnd => started
  end.

Definition has_role (c : Confirmation) (uid : UserId) (ride_id : RideId)
    (r : Ride) (db : DB) : bool :=
  match c with
  | confirmDriverStart | confirmDriverEnd => bool_decide (creator r = uid)
  | confirmPassengerStart | confirmPassengerEnd => passenger_exists ride_id uid db
  end.

Definition status_of (ride_id : RideId) (db : DB) : option RideStatus :=
  ride_status <$> rides db !! ride_id.

Definition flags_of (ride_id : RideId) (db : DB)
  : option (bool * bool * bool * bool) :=
  (fun r => (driver_started r, passenger_started r, driver_ended r,
             passenger_ended r)) <$> rides db !! ride_id.

(** One step along Created -> Started -> Completed, or none. *)
Definition forward_step (s s' : RideStatus) : Prop :=
  s' = s \/ (s = created /\ s' = started) \/ (s = started /\ s' = completed).

Definition status_rank (s : RideStatus) : Z :=
  match s with created => 0 | started => 1 | completed => 2 end.

(** The outcome of a join that went through. *)
Definition join_succeeded (o : Outcome) : Prop :=
  flashed o = [(SUCCESS, "Joined ride successfully!")].

Definition join_refused_no_seats (o : Outcome) : Prop :=
  flashed o = [(WARNING, "No seats available.")].

(** The seat ledger of one ride: the driver's seat plus one per join record. *)
Definition seats_balanced (db : DB) (ride_id : RideId) (r : Ride) : Prop :=
  0 <= seats_available r <= total_seats r /\
  total_seats r - seats_available r = passenger_count ride_id (passengers db) + 1.

(** What holds of every database the views build. *)
Record consistent (db : DB) : Prop := mkConsistent {
  ids_below_next : forall ride_id r, rides db !! ride_id = Some r -> ride_id < next_ride_id db;
  joins_below_next : forall p, In p (passengers db) -> rp_ride p < next_ride_id db;
  ledger : forall ride_id r, rides db !! ride_id = Some r -> seats_balanced db ride_id r
}.

(** A join a user may make on a ride: registered and verified, not the
    driver, not yet a passenger, and a pickup point is posted. *)
Definition eligible (db : DB) (ride_id : RideId) (r : Ride)
    (j : UserId * gmap string string * Z) : Prop :=
  let '(uid, fields, clock) := j in
  (exists u, users db !! uid = Some u /\ aadhaar_verified u = true) /\
  creator r <> uid /\
  passenger_exists ride_id uid db = false /\
  PyStr.truthy (PyStr.strip (default "" (fields !! "pickup_point"))) = true.

(** Joins on one ride served one after the other, with their outcomes. *)
Fixpoint serve_joins (ride_id : RideId) (js : list (UserId * gmap string string * Z))
    (db : DB) : list Outcome :=
  match js with
  | [] => []
  | (uid, fields, clock) :: rest =>
      let o := join_ride ride_id (post uid fields clock) db in
      o :: serve_joins ride_id rest (db_after o)
  end.

Definition final_db (db : DB) (os : list Outcome) : DB :=
  default db (last (db_after <$> os)).

(** ** [join_ride], one database statement at a time

    Nothing in the views opens a transaction or locks a row, so between the
    statements of one request the statements of another may run.  A worker
    is a [join_ride] request in flight; each step is the next database
    statement of its body together with the tests on the loaded instance
    that lead up to it. *)

Module Race.

Inductive Stage : Type :=
| at_start
    (* before [get_object_or_404(Ride, id=ride_id)] *)
| loaded (uid : UserId) (ride : Ride)
    (* holds the instance; next the tests and the [exists()] query *)
| admitted (uid : UserId) (ride : Ride) (pickup_point pickup_notes : string)
    (* next [ride.seats_available -= 1; ride.save()] *)
| saved (uid : UserId) (ride : Ride) (pickup_point pickup_notes : string)
    (* next [RidePassenger.objects.create(...)] *)
| finished (resp : Response) (msgs : list (Level * string)).

Record Worker : Type := mkWorker {
  w_ride_id : RideId;
  w_request : Request;
  stage : Stage
}.

Definition at_stage (w : Worker) (s : Stage) : Worker :=
  mkWorker (w_ride_id w) (w_request w) s.

Definition step (w : Worker) (db : DB) : Worker * DB :=
  let ride_id := w_ride_id w in
  let req := w_request w in
  match stage w with
  | at_start =>
      match session_user req ≫= (fun uid => pair uid <$> users db !! uid) with
      | None => (at_stage w (finished (redirect "login" None) []), db)
      | Some (uid, u) =>
          if negb (aadhaar_verified u) then
            (at_stage w (finished (redirect "aadhaar_verification_start" None)
                           [(WARNING, "Please verify your Aadhaar to join rides.")]), db)
          else
            match rides db !! ride_id with
            | None => (at_stage w (finished Http404 []), db)
            | Some ride =>
                if bool_decide (method req = POST) then (at_stage w (loaded uid ride), db)
                else (at_stage w (finished (render "rides/join_ride.html" (Some ride_id)) []), db)
            end
      end
  | loaded uid ride =>
      if bool_decide (creator ride = uid) then
        (at_stage w (finished (redirect "rides_list" None)
                       [(INFO, "You are the driver for this ride.")]), db)
      else if seats_available ride <=? 0 then
        (at_stage w (finished (redirect "rides_list" None)
                       [(WARNING, "No seats available.")]), db)
      else if passenger_exists ride_id uid db then
        (at_stage w (finished (redirect "rides_list" None)
                       [(INFO, "You have already joined this ride.")]), db)
      else
        let pickup_point := PyStr.strip (POST_get req "pickup_point") in
        let pickup_notes := PyStr.strip (POST_get req "pickup_notes") in
        if negb (PyStr.truthy pickup_point) then
          (at_stage w (finished (render "rides/join_ride.html" (Some ride_id))
                         [(ERROR, "Please enter a pickup point.")]), db)
        else (at_stage w (admitted uid ride pickup_point pickup_notes), db)
  | admitted uid ride pickup_point pickup_notes =>
      let ride := set_seats_available (seats_available ride - 1) ride in
      let '(ride, db1) := Ride_save ride_id ride db in
      (at_stage w (saved uid ride pickup_point pickup_notes), db1)
  | saved uid ride pickup_point pickup_notes =>
      match RidePassenger_create
              (mkRidePassenger uid ride_id pickup_point pickup_notes) db with
      | None => (at_stage w (finished (ServerError "IntegrityError") []), db)
      | Some db2 =>
          (at_stage w (finished (redirect "rides_list" None)
                         [(SUCCESS, "Joined ride successfully!")]), db2)
      end
  | finished _ _ => (w, db)
  end.

(** The workers named by the schedule take one step each, in that order. *)
Fixpoint run (schedule : list nat) (ws : list Worker) (db : DB)
  : list Worker * DB :=
  match schedule with
  | [] => (ws, db)
  | i :: rest =>
      match ws !! i with
      | None => run rest ws db
      | Some w => let '(w', db') := step w db in run rest (<[i := w']> ws) db'
      end
  end.

(** A request that runs to its end with no other statement in between. *)
Definition alone (w : Worker) (db : DB) : Worker * DB :=
  let '(w1, db1) := step w db in
  let '(w2, db2) := step w1 db1 in
  let '(w3, db3) := step w2 db2 in
  step w3 db3.

Definition succeeded (w : Worker) : bool :=
  match stage w with
  | finished _ [(SUCCESS, m)] => String.eqb m "Joined ride successfully!"
  | _ => false
  end.

Definition successes (ws : list Worker) : nat :=
  length (List.filter succeeded ws).

End Race.

(** ** Sample data *)

Module Sample.

(** A decimal reader standing in for the posted-text parsers. *)
Fixpoint digits (s : string) (acc : Z) : option Z :=
  match s with
  | EmptyString => Some acc
  | String a s' =>
      let n := Z.of_nat (nat_of_ascii a) in
      if (48 <=? n) && (n <=? 57) then digits s' (10 * acc + (n - 48)) else None
  end.

Definition decimal (s : string) : option Z :=
  match s with EmptyString => None | _ => digits s 0 end.

Definition decimal_float (s : string) : option float :=
  float_of_Z <$> decimal s.

Definition alice : User := mkUser "alice@eco.com" true.
Definition bob : User := mkUser "bob@eco.com" true.
Definition carol : User := mkUser "carol@eco.com" false.
Definition dave : User := mkUser "dave@eco.com" true.
Definition erin : User := mkUser "erin@eco.com" true.

Definition registered : gmap Z User :=
  <[1 := alice]> (<[2 := bob]> (<[3 := carol]> (<[4 := dave]> (<[5 := erin]> ∅)))).

Definition ride_form (seats : string) : gmap string string :=
  <["ride_date" := "20"]> (<["ride_time" := "510"]> (<["distance_km" := "12"]>
  (<["total_seats" := seats]> (<["from_location" := "Campus"]>
  (<["to_location" := "Downtown"]> (<["vehicle_number" := "kl07ab1234"]> ∅)))))).

Definition pickup_form (p : string) : gmap string string :=
  <["pickup_point" := p]> ∅.

Definition location_form (ride_id lat lon sharing : string) : gmap string string :=
  <["ride_id" := ride_id]> (<["latitude" := lat]> (<["longitude" := lon]>
  (<["is_sharing" := sharing]> ∅))).

Definition serve_sample : list (Route * Request) -> DB -> DB :=
  serve decimal_float decimal decimal decimal.

(** Alice offers a ride with the given number of seats. *)
Definition offered (seats : string) : DB :=
  serve_sample [(url_create_ride, post 1 (ride_form seats) 0)] (fresh_db registered).

(** ... which Bob then joins. *)
Definition joined_by_bob (seats : string) : DB :=
  serve_sample [(url_join_ride 1, post 2 (pickup_form "Main gate") 1)] (offered seats).

(** ... and then Dave and Erin as well. *)
Definition joined_by_three (seats : string) : DB :=
  serve_sample [(url_join_ride 1, post 4 (pickup_form "Library") 2);
                (url_join_ride 1, post 5 (pickup_form "Hostel") 3)]
               (joined_by_bob seats).

(** [management/commands/seed_data.py]: three users, whose profiles keep
    the default [aadhaar_verified = False], and two rides written
    directly through the manager. *)
Definition seeded : DB :=
  let us : gmap Z User :=
    <[1 := mkUser "alice@eco.com" false]>
      (<[2 := mkUser "bob@eco.com" false]> (<[3 := mkUser "carol@eco.com" false]> ∅)) in
  let '(_, db1) :=
    Ride_create (mkRide "Campus" "Downtown" 1 510 "car_petrol" "UNKNOWN"
                   12%float 4 2 1 false false false false created) (fresh_db us) in
  let '(_, db2) :=
    Ride_create (mkRide "Station" "Office Park" 2 540 "car_petrol" "UNKNOWN"
                   20%float 3 1 2 false false false false created) db1 in
  db2.

(** The four confirmations of one ride in order: driver and passenger
    start, driver and passenger end. *)
Definition full_trip (driver passenger : UserId) (ride_id : RideId)
  : list (Confirmation * RideId * Request) :=
  [(confirmDriverStart, ride_id, post driver ∅ 10);
   (confirmPassengerStart, ride_id, post passenger ∅ 11);
   (confirmDriverEnd, ride_id, post driver ∅ 20);
   (confirmPassengerEnd, ride_id, post passenger ∅ 21)].

End Sample.

(** The assignment a confirmation makes on the loaded instance, and the
    database its two saves leave (the flag, then the status check). *)
Definition set_flag (c : Confirmation) : Ride -> Ride :=
  match c with
  | confirmDriverStart => set_driver_started true
  | confirmPassengerStart => set_passenger_started true
  | confirmDriverEnd => set_driver_ended true
  | confirmPassengerEnd => set_passenger_ended true
  end.

Definition confirm_effect (c : Confirmation) (ride_id : RideId) (r : Ride)
    (db : DB) : DB :=
  let saved := Ride_save ride_id (set_flag c r) db in
  (check_and_update_status ride_id saved.1 saved.2).1.2.

(** The row a confirmation leaves for its ride. *)
Definition confirmed_ride (c : Confirmation) (ride_id : RideId) (r : Ride)
    (db : DB) : Ride :=
  let saved := Ride_save ride_id (set_flag c r) db in
  (check_and_update_status ride_id saved.1 saved.2).1.1.

(** How many join records the table holds for (user, ride); the unique
    constraint keeps it at most one. *)
Fixpoint join_records (ride_id : RideId) (uid : UserId) (l : list RidePassenger)
  : nat :=
  match l with
  | [] => 0
  | p :: l' => (if joined ride_id uid p then 1 else 0) + join_records ride_id uid l'
  end.

Definition unique_together (db : DB) : Prop :=
  forall ride_id uid, (join_records ride_id uid (passengers db) <= 1)%nat.

(** * Properties *)

#[local] Arguments Ride_save : simpl never.
#[local] Arguments check_and_update_status : simpl never.

(** ** Decorators, saves and the join table *)

Lemma login_required_ok (view : UserId -> User -> View) req db uid u :
  session_user req = Some uid -> users db !! uid = Some u ->
  login_required view req db = view uid u req db.
Proof.
  intros Hs Hu. unfold login_required. rewrite Hs. simpl. rewrite Hu. reflexivity.
Qed.

Lemma login_required_anonymous (view : UserId -> User -> View) req db :
  session_user req ≫= (fun uid => pair uid <$> users db !! uid) = None ->
  login_required view req db = mkOutcome (redirect "login" None) [] db.
Proof. intros H. unfold login_required. rewrite H. reflexivity. Qed.

Lemma truthy_false s : PyStr.truthy s = false <-> s = "".
Proof. destruct s; simpl; split; congruence. Qed.

Lemma truthy_true s : PyStr.truthy s = true <-> s <> "".
Proof. destruct s; simpl; split; congruence. Qed.

Lemma passenger_exists_first ride_id uid db :
  passenger_exists ride_id uid db = true <->
  exists p, passenger_first ride_id uid db = Some p.
Proof.
  unfold passenger_exists, passenger_first.
  induction (passengers db) as [| q l IH]; simpl.
  - split; [discriminate | intros [p H]; discriminate].
  - destruct (joined ride_id uid q); simpl; [split; eauto | exact IH].
Qed.

Lemma passenger_first_none ride_id uid db :
  passenger_exists ride_id uid db = false <-> passenger_first ride_id uid db = None.
Proof.
  unfold passenger_exists, passenger_first.
  induction (passengers db) as [| q l IH]; simpl; [tauto |].
  destruct (joined ride_id uid q); simpl; [split; discriminate | exact IH].
Qed.

(** ** Joining a ride *)

(** C1 (as amended): for every ride and every identity-verified user who
    posts the join form, the join fails exactly when the user is the ride's
    creator (the driver notice), no seat is available ([seats_available <= 0],
    the no-seats warning), a join record of the user on the ride exists (the
    already-joined notice) or the stripped pickup point is empty (the
    pickup-point error), each refusal leaving the database as it was;
    otherwise it succeeds, takes exactly one seat and adds the join record
    of (user, ride).  Every user whose [aadhaar_verified] is false is turned
    away to the verification page before any of these tests, whatever the
    ride and the form, and the database stays as it was. *)
Theorem join_ride_decides db ride_id ride uid u fields clock :
  users db !! uid = Some u ->
  rides db !! ride_id = Some ride ->
  let o := join_ride ride_id (post uid fields clock) db in
  let pickup_point := PyStr.strip (default "" (fields !! "pickup_point")) in
  let pickup_notes := PyStr.strip (default "" (fields !! "pickup_notes")) in
  (aadhaar_verified u = false ->
     o = reply (redirect "aadhaar_verification_start" None)
               [(WARNING, "Please verify your Aadhaar to join rides.")] db) /\
  (aadhaar_verified u = true ->
  (join_succeeded o <->
     ~ (creator ride = uid \/ seats_available ride <= 0
        \/ passenger_exists ride_id uid db = true \/ pickup_point = "")) /\
  (creator ride = uid ->
     o = reply (redirect "rides_list" None)
               [(INFO, "You are the driver for this ride.")] db) /\
  (creator ride <> uid -> seats_available ride <= 0 ->
     o = reply (redirect "rides_list" None) [(WARNING, "No seats available.")] db) /\
  (creator ride <> uid -> 0 < seats_available ride ->
   passenger_exists ride_id uid db = true ->
     o = reply (redirect "rides_list" None)
               [(INFO, "You have already joined this ride.")] db) /\
  (creator ride <> uid -> 0 < seats_available ride ->
   passenger_exists ride_id uid db = false -> pickup_point = "" ->
     o = reply (render "rides/join_ride.html" (Some ride_id))
               [(ERROR, "Please enter a pickup point.")] db) /\
  (join_succeeded o ->
     exists ride',
       rides (db_after o) = <[ride_id := ride']> (rides db) /\
       seats_available ride' = seats_available ride - 1 /\
       total_seats ride' = total_seats ride /\
       passengers (db_after o) =
         (passengers db ++ [mkRidePassenger uid ride_id pickup_point pickup_notes])%list /\
       passenger_exists ride_id uid (db_after o) = true /\
       users (db_after o) = users db /\
       live_locations (db_after o) = live_locations db)).
Proof.
  intros Hu Hr o pp pn.
  assert (Ho : o = _)
    by (unfold o, join_ride, post;
        rewrite (login_required_ok _ _ _ uid u) by done; reflexivity).
  cbv beta in Ho. split; intros Hv; rewrite Hv in Ho; [exact Ho |].
  rewrite Hr in Ho. unfold Ride_save in Ho. simpl in Ho.
  unfold POST_get in Ho. simpl in Ho. fold pp pn in Ho.
  clearbody o. subst o. unfold join_succeeded.
  case_bool_decide as Hc.
  { simpl. repeat split; try (intros; congruence || tauto); try discriminate.
    all: try (intros H; exfalso; apply H; auto). }
  destruct (Z.leb_spec (seats_available ride) 0) as [Hs | Hs].
  { simpl. repeat split; try (intros; first [congruence | lia | tauto]);
      try discriminate.
    all: try (intros H; exfalso; apply H; auto). }
  destruct (passenger_exists ride_id uid db) eqn:He.
  { simpl. repeat split; try (intros; first [congruence | lia | tauto]);
      try discriminate.
    all: try (intros H; exfalso; apply H; auto). }
  destruct pp as [| a pp'] eqn:Hpp; simpl.
  { repeat split; try (intros; first [congruence | lia | tauto]);
      try discriminate.
    all: try (intros H; exfalso; apply H; auto). }
  unfold RidePassenger_create. simpl.
  unfold passenger_exists in *. simpl. rewrite He. simpl.
  repeat split; try (intros; first [congruence | lia | tauto]).
  - intros _ [H | [H | [H | H]]]; first [congruence | lia].
  - intros _. eexists. split; [reflexivity |].
    repeat split.
    + destruct (PyStr.truthy _); reflexivity.
    + destruct (PyStr.truthy _); reflexivity.
    + rewrite existsb_app. simpl. unfold joined. simpl.
      rewrite !Z.eqb_refl. simpl. apply orb_true_r.
Qed.

(** Bob, verified, takes the one free seat of Alice's two-seat ride. *)
Lemma join_ride_decides_witness :
  let db := Sample.offered "2" in
  let o := join_ride 1 (post 2 (Sample.pickup_form "Main gate") 1) db in
  users db !! 2 = Some Sample.bob /\
  aadhaar_verified Sample.bob = true /\
  (exists ride, rides db !! 1 = Some ride /\ seats_available ride = 1) /\
  join_succeeded o /\
  seats_available <$> rides (db_after o) !! 1 = Some 0.
Proof.
  pose proof (join_ride_decides (Sample.offered "2") 1
                (mkRide "Campus" "Downtown" 20 510 "car_petrol" "KL07AB1234"
                   12%float 2 1 1 false false false false created)
                2 Sample.bob (Sample.pickup_form "Main gate") 1
                eq_refl eq_refl) as [_ Hverified].
  destruct (Hverified eq_refl) as [Hiff _].
  cbv zeta. split; [reflexivity |]. split; [reflexivity |].
  split; [eexists; split; reflexivity |].
  split; [| reflexivity].
  apply Hiff. vm_compute. intros [H | [H | [H | H]]]; congruence.
Defined.

(** C1 as stated fails on a user who is not verified: Carol is not the
    driver, a seat is free, she has no join record and posts a pickup point,
    yet the join is turned away to the verification page. *)
Lemma join_ride_unverified_turned_away :
  let db := Sample.offered "2" in
  let req := post 3 (Sample.pickup_form "Main gate") 1 in
  (exists ride, rides db !! 1 = Some ride /\
     bool_decide (creator ride = 3) = false /\
     (seats_available ride <=? 0) = false) /\
  passenger_exists 1 3 db = false /\
  PyStr.strip (POST_get req "pickup_point") = "Main gate" /\
  join_ride 1 req db =
    reply (redirect "aadhaar_verification_start" None)
          [(WARNING, "Please verify your Aadhaar to join rides.")] db.
Proof.
  cbv zeta. repeat split.
  eexists. repeat split; reflexivity.
Qed.

(** ** The emission calculator *)

(** C8: [calculate_co2] is solo = distance x factor / 1000, shared = solo /
    max(occupants, 1), saved = solo - shared, and a ride's occupants are
    max(total_seats - seats_available, 1).  For 12 km at 120 g/km in a
    four-seat ride, one joined passenger gives 2 occupants and (1.44, 0.72,
    0.72) kg; three joined passengers give 4 occupants, 0.36 kg shared and
    1.08 kg saved.  The figures are the binary64 values Python computes. *)
Theorem calculate_co2_worked_example :
  (forall distance_km vehicle_type occupants,
     let factor := default 120 (EMISSION_FACTORS !! vehicle_type) in
     let solo := PrimFloat.div (PrimFloat.mul distance_km (float_of_Z factor))
                               (float_of_Z 1000) in
     let shared := PrimFloat.div solo (float_of_Z (Z.max occupants 1)) in
     calculate_co2 distance_km vehicle_type occupants
       = (solo, shared, PrimFloat.sub solo shared)) /\
  (forall r, occupant_count r = Z.max (total_seats r - seats_available r) 1) /\
  EMISSION_FACTORS !! "car_petrol" = Some 120 /\
  (fun r => (distance_km r, total_seats r, passenger_count 1 (passengers (Sample.joined_by_bob "4")),
             occupant_count r, ride_co2 r))
    <$> rides (Sample.joined_by_bob "4") !! 1
    = Some (12%float, 4, 1, 2, (1.44%float, 0.72%float, 0.72%float)) /\
  (fun r => (distance_km r, total_seats r, passenger_count 1 (passengers (Sample.joined_by_three "4")),
             occupant_count r, ride_co2 r))
    <$> rides (Sample.joined_by_three "4") !! 1
    = Some (12%float, 4, 3, 4, (1.44%float, 0.36%float, 1.08%float)).
Proof.
  split; [intros; reflexivity |].
  split; [intros; reflexivity |].
  split; [reflexivity |].
  split; vm_compute; reflexivity.
Qed.

(** ** The seat ledger *)

Lemma passenger_count_nonneg ride_id l : 0 <= passenger_count ride_id l.
Proof. induction l as [| p l IH]; simpl; [lia |]. destruct (_ =? _); lia. Qed.

Lemma passenger_count_app ride_id l p :
  passenger_count ride_id (l ++ [p]) =
  passenger_count ride_id l + (if rp_ride p =? ride_id then 1 else 0).
Proof. induction l as [| q l IH]; simpl; [lia |]. rewrite IH. lia. Qed.

Lemma passenger_count_absent ride_id l :
  (forall p, In p l -> rp_ride p <> ride_id) -> passenger_count ride_id l = 0.
Proof.
  induction l as [| q l IH]; simpl; intros H; [reflexivity |].
  rewrite IH by auto. destruct (Z.eqb_spec (rp_ride q) ride_id) as [E | _]; [| lia].
  exfalso. apply (H q); auto.
Qed.

Lemma remove_first_In f l p : In p (remove_first f l) -> In p l.
Proof.
  induction l as [| q l IH]; simpl; [tauto |].
  destruct (f q); simpl; intuition.
Qed.

Lemma remove_first_count ride_id uid l p :
  find (joined ride_id uid) l = Some p ->
  passenger_count ride_id (remove_first (joined ride_id uid) l) =
  passenger_count ride_id l - 1.
Proof.
  induction l as [| q l IH]; simpl; [discriminate |].
  unfold joined at 1 3. destruct (Z.eqb_spec (rp_ride q) ride_id) as [E | E]; simpl.
  - destruct (rp_user q =? uid); simpl.
    + intros _. lia.
    + intros H. rewrite E, Z.eqb_refl, IH by exact H. lia.
  - intros H. destruct (Z.eqb_spec (rp_ride q) ride_id); [contradiction |].
    rewrite IH by exact H. lia.
Qed.

Lemma remove_first_count_other ride_id uid other l :
  other <> ride_id ->
  passenger_count other (remove_first (joined ride_id uid) l) =
  passenger_count other l.
Proof.
  intros Hne. induction l as [| q l IH]; simpl; [reflexivity |].
  unfold joined at 1. destruct (Z.eqb_spec (rp_ride q) ride_id) as [E | E]; simpl.
  - destruct (rp_user q =? uid); simpl.
    + destruct (Z.eqb_spec (rp_ride q) other); [congruence | lia].
    + rewrite IH. reflexivity.
  - rewrite IH. reflexivity.
Qed.

Lemma Ride_save_fst ride_id r db :
  let r' := (Ride_save ride_id r db).1 in
  total_seats r' = total_seats r /\ seats_available r' = seats_available r /\
  creator r' = creator r /\ ride_status r' = ride_status r /\
  driver_started r' = driver_started r /\ passenger_started r' = passenger_started r /\
  driver_ended r' = driver_ended r /\ passenger_ended r' = passenger_ended r.
Proof. unfold Ride_save. simpl. destruct (PyStr.truthy _); simpl; tauto. Qed.

Lemma Ride_save_snd ride_id r db :
  (Ride_save ride_id r db).2 =
  set_rides (<[ride_id := (Ride_save ride_id r db).1]> (rides db)) db.
Proof. reflexivity. Qed.

Lemma consistent_fresh us : consistent (fresh_db us).
Proof.
  split; simpl.
  - intros ride_id r H. rewrite lookup_empty in H. discriminate.
  - tauto.
  - intros ride_id r H. rewrite lookup_empty in H. discriminate.
Qed.

(** Rewriting a row without touching its seat columns keeps the ledger. *)
Lemma consistent_update db ride_id r r' :
  consistent db -> rides db !! ride_id = Some r ->
  total_seats r' = total_seats r -> seats_available r' = seats_available r ->
  consistent (set_rides (<[ride_id := r']> (rides db)) db).
Proof.
  intros [Hids Hjoins Hledger] Hr Ht Hs. split; simpl.
  - intros i x. rewrite lookup_insert. case_decide; [subst; eauto | eauto].
  - exact Hjoins.
  - intros i x. rewrite lookup_insert. case_decide as E.
    + intros [= <-]. subst i. specialize (Hledger _ _ Hr).
      unfold seats_balanced in *. simpl. rewrite Ht, Hs. exact Hledger.
    + intros Hx. specialize (Hledger _ _ Hx). exact Hledger.
Qed.

Lemma consistent_save db ride_id r r0 :
  consistent db -> rides db !! ride_id = Some r0 ->
  total_seats r = total_seats r0 -> seats_available r = seats_available r0 ->
  consistent (Ride_save ride_id r db).2.
Proof.
  intros Hc Hr Ht Hs. rewrite Ride_save_snd.
  destruct (Ride_save_fst ride_id r db) as (Ht' & Hs' & _).
  eapply consistent_update; eauto; congruence.
Qed.

Lemma check_and_update_status_eq ride_id r db :
  check_and_update_status ride_id r db =
  if driver_started r && passenger_started r && bool_decide (ride_status r = created)
  then ((Ride_save ride_id (set_ride_status started r) db).1,
        (Ride_save ride_id (set_ride_status started r) db).2, Some started)
  else if driver_ended r && passenger_ended r && bool_decide (ride_status r = started)
  then ((Ride_save ride_id (set_ride_status completed r) db).1,
        (Ride_save ride_id (set_ride_status completed r) db).2, Some completed)
  else (r, db, None).
Proof.
  unfold check_and_update_status.
  destruct (_ && _ && _); [reflexivity |]. destruct (_ && _ && _); reflexivity.
Qed.

Lemma check_and_update_status_consistent db ride_id r r0 :
  consistent db -> rides db !! ride_id = Some r0 ->
  total_seats r = total_seats r0 -> seats_available r = seats_available r0 ->
  consistent (check_and_update_status ride_id r db).1.2.
Proof.
  intros Hc Hr Ht Hs. rewrite check_and_update_status_eq.
  destruct (_ && _ && _).
  - exact (consistent_save db ride_id (set_ride_status started r) r0 Hc Hr Ht Hs).
  - destruct (_ && _ && _); [| exact Hc].
    exact (consistent_save db ride_id (set_ride_status completed r) r0 Hc Hr Ht Hs).
Qed.

Lemma require_http_methods_ok allowed (view : View) req db :
  method req ∈ allowed -> require_http_methods allowed view req db = view req db.
Proof. intros H. unfold require_http_methods. rewrite bool_decide_true by done. done. Qed.

Lemma require_http_methods_refused allowed (view : View) req db :
  method req ∉ allowed ->
  require_http_methods allowed view req db = mkOutcome HttpResponseNotAllowed [] db.
Proof. intros H. unfold require_http_methods. rewrite bool_decide_false by done. done. Qed.

(** What a confirmation view does, by cases on the caller's role, the
    ride's status and the flag. *)
Lemma confirm_post c ride_id uid u ride req db :
  method req = POST -> session_user req = Some uid ->
  users db !! uid = Some u -> rides db !! ride_id = Some ride ->
  let o := confirm c ride_id req db in
  (has_role c uid ride_id ride db = false /\
     exists msg, o = reply (json_error msg 403) [] db) \/
  (has_role c uid ride_id ride db = true /\
     (ride_status ride <> status_needed c \/ flag_of c ride = true) /\
     exists msg, o = reply (json_error msg 400) [] db) \/
  (has_role c uid ride_id ride db = true /\
     ride_status ride = status_needed c /\ flag_of c ride = false /\
     exists msgs, o = reply (redirect "ride_detail" (Some ride_id)) msgs
                            (confirm_effect c ride_id ride db)).
Proof.
  intros Hm Hs Hu Hr o. subst o.
  destruct c; unfold confirm, driver_start_ride, passenger_confirm_start,
    driver_end_ride, passenger_confirm_arrival;
    rewrite (login_required_ok _ _ _ uid u) by assumption;
    rewrite require_http_methods_ok by (rewrite Hm; apply list_elem_of_singleton; reflexivity);
    rewrite Hr;
    unfold has_role, status_needed, flag_of, confirm_effect, set_flag.
  1, 3:
    case_bool_decide as Hc; cbn; [| left; eauto];
    case_bool_decide as Hst; cbn; [| right; left; eauto];
    match goal with |- context [if ?b then _ else _] => destruct b eqn:Hf end;
      [right; left; eauto |];
    right; right; repeat (split; [done |]);
    rewrite (surjective_pairing (Ride_save _ _ _));
    rewrite (surjective_pairing (check_and_update_status _ _ _));
    rewrite (surjective_pairing (check_and_update_status _ _ _).1);
    cbn; case_bool_decide; eauto.
  all:
    destruct (passenger_first ride_id uid db) as [p |] eqn:Hp;
      [ assert (He : passenger_exists ride_id uid db = true)
          by (apply passenger_exists_first; eauto)
      | apply passenger_first_none in Hp; left; eauto ];
    rewrite He;
    case_bool_decide as Hst; cbn; [| right; left; eauto];
    match goal with |- context [if ?b then _ else _] => destruct b eqn:Hf end;
      [right; left; eauto |];
    right; right; repeat (split; [done |]);
    rewrite (surjective_pairing (Ride_save _ _ _));
    rewrite (surjective_pairing (check_and_update_status _ _ _));
    rewrite (surjective_pairing (check_and_update_status _ _ _).1);
    cbn; case_bool_decide; eauto.
Qed.

Lemma confirm_anonymous c ride_id req db :
  session_user req ≫= (fun uid => pair uid <$> users db !! uid) = None ->
  confirm c ride_id req db = mkOutcome (redirect "login" None) [] db.
Proof. intros H. destruct c; apply login_required_anonymous, H. Qed.

Lemma confirm_not_post c ride_id req db :
  method req <> POST -> db_after (confirm c ride_id req db) = db.
Proof.
  intros Hm.
  destruct (session_user req ≫= (fun uid => pair uid <$> users db !! uid))
    as [[uid u] |] eqn:Hs; [| rewrite confirm_anonymous by exact Hs; reflexivity].
  destruct c; unfold confirm, driver_start_ride, passenger_confirm_start,
    driver_end_ride, passenger_confirm_arrival, login_required; rewrite Hs;
    rewrite require_http_methods_refused by (rewrite list_elem_of_singleton; exact Hm);
    reflexivity.
Qed.

Lemma confirm_no_ride c ride_id req db :
  rides db !! ride_id = None -> db_after (confirm c ride_id req db) = db.
Proof.
  intros Hr.
  destruct (session_user req ≫= (fun uid => pair uid <$> users db !! uid))
    as [[uid u] |] eqn:Hs; [| rewrite confirm_anonymous by exact Hs; reflexivity].
  destruct c; unfold confirm, driver_start_ride, passenger_confirm_start,
    driver_end_ride, passenger_confirm_arrival, login_required,
    require_http_methods; rewrite Hs; destruct (bool_decide _); try reflexivity;
    rewrite Hr; reflexivity.
Qed.

(** A confirmation either leaves the database alone or applies its effect
    to a ride in the needed status whose flag was still false. *)
Lemma confirm_db c ride_id req db :
  db_after (confirm c ride_id req db) = db \/
  exists ride, rides db !! ride_id = Some ride /\
    ride_status ride = status_needed c /\ flag_of c ride = false /\
    db_after (confirm c ride_id req db) = confirm_effect c ride_id ride db.
Proof.
  destruct (decide (method req = POST)) as [Hm | Hm];
    [| left; apply confirm_not_post, Hm].
  destruct (rides db !! ride_id) as [ride |] eqn:Hr;
    [| left; apply confirm_no_ride, Hr].
  destruct (session_user req) as [uid |] eqn:Hs;
    [| left; rewrite confirm_anonymous by (rewrite Hs; reflexivity); reflexivity].
  destruct (users db !! uid) as [u |] eqn:Hu;
    [| left; rewrite confirm_anonymous by (rewrite Hs; simpl; rewrite Hu; reflexivity);
       reflexivity].
  destruct (confirm_post c ride_id uid u ride req db Hm Hs Hu Hr)
    as [(_ & msg & ->) | [(_ & _ & msg & ->) | (_ & Hst & Hf & msgs & ->)]];
    [left; reflexivity | left; reflexivity | right; eauto].
Qed.

Lemma confirm_effect_eq c ride_id r db :
  confirm_effect c ride_id r db =
  set_rides (<[ride_id := confirmed_ride c ride_id r db]> (rides db)) db.
Proof.
  unfold confirm_effect, confirmed_ride. cbv zeta.
  rewrite check_and_update_status_eq.
  destruct (_ && _ && _).
  { cbn [fst snd]. rewrite !Ride_save_snd. unfold set_rides. cbn.
    rewrite insert_insert_eq. reflexivity. }
  destruct (_ && _ && _).
  { cbn [fst snd]. rewrite !Ride_save_snd. unfold set_rides. cbn.
    rewrite insert_insert_eq. reflexivity. }
  cbn [fst snd]. rewrite Ride_save_snd. reflexivity.
Qed.

Lemma confirmed_ride_seats c ride_id r db :
  total_seats (confirmed_ride c ride_id r db) = total_seats r /\
  seats_available (confirmed_ride c ride_id r db) = seats_available r /\
  creator (confirmed_ride c ride_id r db) = creator r.
Proof.
  unfold confirmed_ride. cbv zeta. rewrite check_and_update_status_eq.
  destruct (Ride_save_fst ride_id (set_flag c r) db) as (Ht & Hs & Hc & _).
  assert (total_seats (set_flag c r) = total_seats r /\
          seats_available (set_flag c r) = seats_available r /\
          creator (set_flag c r) = creator r) as (Ht0 & Hs0 & Hc0)
    by (destruct c; repeat split).
  destruct (_ && _ && _); [| destruct (_ && _ && _)]; cbn [fst snd].
  - match goal with |- context [Ride_save ?i ?x ?d] =>
      destruct (Ride_save_fst i x d) as (Ht1 & Hs1 & Hc1 & _) end.
    cbn in *. repeat split; congruence.
  - match goal with |- context [Ride_save ?i ?x ?d] =>
      destruct (Ride_save_fst i x d) as (Ht1 & Hs1 & Hc1 & _) end.
    cbn in *. repeat split; congruence.
  - repeat split; congruence.
Qed.

(** What the capacity views leave behind. *)
Lemma join_ride_db ride_id req db :
  db_after (join_ride ride_id req db) = db \/
  exists uid ride p,
    rides db !! ride_id = Some ride /\ 0 < seats_available ride /\
    rp_ride p = ride_id /\ rp_user p = uid /\
    passenger_exists ride_id uid db = false /\
    db_after (join_ride ride_id req db) =
      set_passengers (passengers db ++ [p])
        (Ride_save ride_id (set_seats_available (seats_available ride - 1) ride) db).2.
Proof.
  unfold join_ride, login_required.
  destruct (session_user req ≫= _) as [[uid u] |]; [| left; reflexivity].
  destruct (aadhaar_verified u); [| left; reflexivity]. cbn.
  destruct (rides db !! ride_id) as [ride |] eqn:Hr; [| left; reflexivity].
  destruct (bool_decide (method req = POST)); [| left; reflexivity].
  destruct (bool_decide (creator ride = uid)); [left; reflexivity |].
  destruct (Z.leb_spec (seats_available ride) 0) as [Hs | Hs]; [left; reflexivity |].
  destruct (passenger_exists ride_id uid db) eqn:He; [left; reflexivity |].
  destruct (negb _); [left; reflexivity |].
  rewrite (surjective_pairing (Ride_save _ _ _)).
  unfold RidePassenger_create, passenger_exists. rewrite Ride_save_snd. cbn.
  unfold passenger_exists in He. rewrite He. cbn.
  right. eexists uid, ride, _. repeat split; try reflexivity; assumption.
Qed.

Lemma leave_body_db back ride_id req db :
  db_after (leave_body back ride_id req db) = db \/
  exists uid ride p,
    rides db !! ride_id = Some ride /\
    passenger_first ride_id uid db = Some p /\
    db_after (leave_body back ride_id req db) =
      (Ride_save ride_id (set_seats_available (seats_available ride + 1) ride)
         (set_passengers (remove_first (joined ride_id uid) (passengers db)) db)).2.
Proof.
  unfold leave_body, login_required.
  destruct (session_user req ≫= _) as [[uid u] |]; [| left; reflexivity].
  destruct (bool_decide (method req = POST)); [| left; reflexivity].
  destruct (rides db !! ride_id) as [ride |] eqn:Hr; [| left; reflexivity].
  destruct (passenger_first ride_id uid db) as [p |] eqn:Hp; [| left; reflexivity].
  rewrite (surjective_pairing (Ride_save _ _ _)). cbn.
  right. exists uid, ride, p.
  split; [first [exact Hr | reflexivity] |].
  split; [first [exact Hp | reflexivity] | reflexivity].
Qed.

Lemma consistent_join db ride_id ride p :
  consistent db -> rides db !! ride_id = Some ride -> 0 < seats_available ride ->
  rp_ride p = ride_id ->
  consistent
    (set_passengers (passengers db ++ [p])
       (Ride_save ride_id (set_seats_available (seats_available ride - 1) ride) db).2).
Proof.
  intros [Hids Hjoins Hledger] Hr Hs Hp. rewrite Ride_save_snd.
  destruct (Ride_save_fst ride_id (set_seats_available (seats_available ride - 1) ride) db)
    as (Ht' & Hs' & _). cbn in Ht', Hs'.
  set (r' := (Ride_save _ _ _).1) in *. clearbody r'.
  split; cbn.
  - intros i x. rewrite lookup_insert. case_decide; [subst; eauto | eauto].
  - intros q Hq. apply in_app_or in Hq as [Hq | [<- | []]]; [eauto |].
    rewrite Hp. eauto.
  - intros i x. rewrite lookup_insert. unfold seats_balanced. cbn.
    rewrite passenger_count_app, Hp.
    case_decide as E.
    + intros [= <-]. subst i. rewrite Z.eqb_refl, Ht', Hs'.
      destruct (Hledger _ _ Hr) as [? ?]. lia.
    + intros Hx. destruct (Z.eqb_spec ride_id i); [congruence |].
      destruct (Hledger _ _ Hx) as [? ?]. lia.
Qed.

Lemma find_joined_ride ride_id uid l p :
  find (joined ride_id uid) l = Some p -> rp_ride p = ride_id /\ rp_user p = uid.
Proof.
  intros H. apply find_some in H as [_ H]. unfold joined in H.
  apply andb_prop in H as [H1 H2]. split; lia.
Qed.

Lemma consistent_leave db ride_id uid ride p :
  consistent db -> rides db !! ride_id = Some ride ->
  passenger_first ride_id uid db = Some p ->
  consistent
    (Ride_save ride_id (set_seats_available (seats_available ride + 1) ride)
       (set_passengers (remove_first (joined ride_id uid) (passengers db)) db)).2.
Proof.
  intros [Hids Hjoins Hledger] Hr Hp. rewrite Ride_save_snd.
  match goal with |- context [Ride_save ?i ?x ?d] =>
    destruct (Ride_save_fst i x d) as (Ht' & Hs' & _) end. cbn in Ht', Hs'.
  set (r' := (Ride_save _ _ _).1) in *. clearbody r'.
  unfold passenger_first in Hp.
  split; cbn.
  - intros i x. rewrite lookup_insert. case_decide; [subst; eauto | eauto].
  - intros q Hq. apply remove_first_In in Hq. eauto.
  - intros i x. rewrite lookup_insert. unfold seats_balanced. cbn.
    case_decide as E.
    + intros [= <-]. subst i. rewrite Ht', Hs'.
      rewrite (remove_first_count _ _ _ _ Hp).
      destruct (Hledger _ _ Hr) as [? ?].
      pose proof (passenger_count_nonneg ride_id
                    (remove_first (joined ride_id uid) (passengers db))) as Hn.
      rewrite (remove_first_count _ _ _ _ Hp) in Hn. lia.
    + intros Hx. rewrite remove_first_count_other by congruence.
      exact (Hledger _ _ Hx).
Qed.

Lemma consistent_live_locations db m :
  consistent db -> consistent (set_live_locations m db).
Proof. intros [H1 H2 H3]. split; assumption. Qed.

Lemma consistent_create db r :
  consistent db -> 1 <= total_seats r ->
  seats_available r = Z.max (total_seats r - 1) 0 ->
  consistent (Ride_create r db).2.
Proof.
  intros [Hids Hjoins Hledger] Ht Hs. unfold Ride_create.
  rewrite (surjective_pairing (Ride_save _ _ _)). rewrite Ride_save_snd.
  destruct (Ride_save_fst (next_ride_id db) r db) as (Ht' & Hs' & _).
  set (r' := (Ride_save _ _ _).1) in *. clearbody r'.
  split; cbn.
  - intros i x. rewrite lookup_insert. case_decide as E.
    + intros _. lia.
    + intros Hx. specialize (Hids _ _ Hx). lia.
  - intros q Hq. specialize (Hjoins _ Hq). lia.
  - intros i x. rewrite lookup_insert. unfold seats_balanced. cbn.
    case_decide as E.
    + intros [= <-]. subst i. rewrite Ht', Hs', Hs.
      rewrite passenger_count_absent; [lia |].
      intros q Hq. specialize (Hjoins _ Hq). lia.
    + intros Hx. exact (Hledger _ _ Hx).
Qed.

Section Served.

Variable float_of_string : string -> option float.
Variable int_of_string : string -> option Z.
Variable strptime_date : string -> option Z.
Variable strptime_time : string -> option Z.

Local Abbreviation create_ride' :=
  (create_ride float_of_string int_of_string strptime_date strptime_time).
Local Abbreviation update_location' := (update_location float_of_string int_of_string).
Local Abbreviation urlpatterns' :=
  (urlpatterns float_of_string int_of_string strptime_date strptime_time).
Local Abbreviation serve' :=
  (serve float_of_string int_of_string strptime_date strptime_time).

Lemma create_ride_db req db :
  db_after (create_ride' req db) = db \/
  exists r, 1 <= total_seats r /\
    seats_available r = Z.max (total_seats r - 1) 0 /\
    db_after (create_ride' req db) = (Ride_create r db).2.
Proof.
  unfold create_ride, login_required.
  destruct (session_user req ≫= _) as [[uid u] |]; [| left; reflexivity].
  destruct (aadhaar_verified u); [| left; reflexivity]. cbn.
  destruct (bool_decide (method req = POST)); [| left; reflexivity].
  match goal with |- context [match ?x with Some _ => _ | None => _ end] =>
    destruct x as [[[[d t] km] n] |] end; [| left; reflexivity].
  destruct (negb _); [left; reflexivity |].
  destruct (Z.ltb_spec n 1) as [Hn | Hn]; [left; reflexivity |].
  destruct (Ride_create_error _); [left; reflexivity |].
  rewrite (surjective_pairing (Ride_create _ _)). cbn.
  right. eexists. split; [| split; [| reflexivity]]; cbn; [exact Hn | reflexivity].
Qed.

Lemma update_location_db req db :
  exists m, db_after (update_location' req db) = set_live_locations m db.
Proof.
  assert (Hid : db = set_live_locations (live_locations db) db) by (destruct db; reflexivity).
  unfold update_location, login_required.
  destruct (session_user req ≫= _) as [[uid u] |]; [| eexists; exact Hid].
  unfold require_http_methods. destruct (bool_decide _); [| eexists; exact Hid].
  destruct (negb _); [eexists; exact Hid |].
  destruct (_ ≫= float_of_string) as [lat |]; [| eexists; exact Hid].
  destruct (_ ≫= float_of_string) as [lon |]; [| eexists; exact Hid].
  destruct (_ ≫= int_of_string) as [ride_id |]; [| eexists; exact Hid].
  destruct (rides db !! ride_id) as [ride |]; [| eexists; exact Hid].
  destruct (negb _); [eexists; exact Hid |].
  unfold LiveLocation_update_or_create. cbn.
  destruct (PrimFloat.is_nan lat); [eexists; exact Hid |].
  destruct (PrimFloat.is_nan lon); [eexists; exact Hid |].
  eexists. reflexivity.
Qed.

Lemma get_location_db user_id ride_id req db :
  db_after (get_location user_id ride_id req db) = db.
Proof.
  unfold get_location, login_required.
  destruct (session_user req ≫= _) as [[uid u] |]; [| reflexivity].
  unfold require_http_methods. destruct (bool_decide _); [| reflexivity].
  destruct (rides db !! ride_id) as [ride |]; [| reflexivity].
  destruct (negb _); [reflexivity |].
  destruct (users db !! user_id); [| reflexivity].
  destruct (negb _); [reflexivity |].
  destruct (live_locations db !! user_id) as [l |]; [| reflexivity].
  destruct (_ && _); reflexivity.
Qed.

Lemma stop_location_sharing_db req db :
  exists m, db_after (stop_location_sharing req db) = set_live_locations m db.
Proof.
  assert (Hid : db = set_live_locations (live_locations db) db) by (destruct db; reflexivity).
  unfold stop_location_sharing, login_required.
  destruct (session_user req ≫= _) as [[uid u] |]; [| eexists; exact Hid].
  unfold require_http_methods. destruct (bool_decide _); [| eexists; exact Hid].
  destruct (live_locations db !! uid); eexists; [reflexivity | exact Hid].
Qed.

Lemma confirm_consistent c ride_id req db :
  consistent db -> consistent (db_after (confirm c ride_id req db)).
Proof.
  intros Hc. destruct (confirm_db c ride_id req db) as [-> | (ride & Hr & _ & _ & ->)];
    [exact Hc |].
  rewrite confirm_effect_eq.
  destruct (confirmed_ride_seats c ride_id ride db) as (Ht & Hs & _).
  eapply consistent_update; eauto.
Qed.

(** Every route keeps the database consistent. *)
Lemma urlpatterns_consistent r req db :
  consistent db -> consistent (db_after (urlpatterns' r req db)).
Proof.
  intros Hc. destruct r; cbn.
  - destruct (create_ride_db req db) as [-> | (r & Ht & Hs & ->)]; [exact Hc |].
    apply consistent_create; assumption.
  - destruct (join_ride_db ride_id req db)
      as [-> | (uid & ride & p & Hr & Hs & Hp & _ & _ & ->)]; [exact Hc |].
    apply consistent_join; assumption.
  - unfold cancel_ride.
    destruct (leave_body_db "dashboard" ride_id req db)
      as [-> | (uid & ride & p & Hr & Hp & ->)]; [exact Hc |].
    eapply consistent_leave; eassumption.
  - unfold leave_ride.
    destruct (leave_body_db "rides_list" ride_id req db)
      as [-> | (uid & ride & p & Hr & Hp & ->)]; [exact Hc |].
    eapply consistent_leave; eassumption.
  - exact (confirm_consistent confirmDriverStart ride_id req db Hc).
  - exact (confirm_consistent confirmPassengerStart ride_id req db Hc).
  - exact (confirm_consistent confirmDriverEnd ride_id req db Hc).
  - exact (confirm_consistent confirmPassengerEnd ride_id req db Hc).
  - destruct (update_location_db req db) as [m ->].
    apply consistent_live_locations, Hc.
  - rewrite get_location_db. exact Hc.
  - destruct (stop_location_sharing_db req db) as [m ->].
    apply consistent_live_locations, Hc.
Qed.

Lemma serve_consistent calls db :
  consistent db -> consistent (serve' calls db).
Proof.
  revert db. induction calls as [| [r req] rest IH]; intros db Hc; [exact Hc |].
  cbn. apply IH, urlpatterns_consistent, Hc.
Qed.

(** C2 (as amended): in every database reached from registered users by
    serving any sequence of requests to the coordination views (create,
    join, leave, cancel, the confirmations, the location calls), every ride
    has 0 <= seats_available <= total_seats, and total_seats -
    seats_available equals the number of its join records plus one, the
    seat the driver takes at creation. *)
Theorem seats_ledger us calls ride_id r :
  rides (serve' calls (fresh_db us)) !! ride_id = Some r ->
  0 <= seats_available r <= total_seats r /\
  total_seats r - seats_available r =
    passenger_count ride_id (passengers (serve' calls (fresh_db us))) + 1.
Proof.
  intros Hr.
  exact (ledger _ (serve_consistent calls _ (consistent_fresh us)) ride_id r Hr).
Qed.

End Served.

(** Alice's two-seat ride after Bob joined: no seat left, one join record. *)
Lemma seats_ledger_witness :
  let db := Sample.joined_by_bob "2" in
  exists r, rides db !! 1 = Some r /\
    (0 <= seats_available r <= total_seats r /\
     total_seats r - seats_available r = passenger_count 1 (passengers db) + 1) /\
    seats_available r = 0 /\ total_seats r = 2.
Proof.
  cbv zeta. eexists. split; [reflexivity |]. split; [| split; reflexivity].
  exact (seats_ledger Sample.decimal_float Sample.decimal Sample.decimal
           Sample.decimal Sample.registered
           [(url_create_ride, post 1 (Sample.ride_form "2") 0);
            (url_join_ride 1, post 2 (Sample.pickup_form "Main gate") 1)]
           1 _ eq_refl).
Defined.

(** C2 as stated fails right after creation: a two-seat ride has one seat
    available, so total_seats - seats_available is 1, with no join record. *)
Lemma seats_ledger_counts_the_driver :
  let db := Sample.offered "2" in
  (fun r => (total_seats r, seats_available r, total_seats r - seats_available r))
    <$> rides db !! 1 = Some (2, 1, 1) /\
  passenger_count 1 (passengers db) = 0.
Proof. cbv zeta. split; reflexivity. Qed.

(** ** The ride lifecycle *)

Lemma set_flag_fields c r :
  ride_status (set_flag c r) = ride_status r /\
  total_seats (set_flag c r) = total_seats r /\
  seats_available (set_flag c r) = seats_available r /\
  creator (set_flag c r) = creator r /\
  flag_of c (set_flag c r) = true.
Proof. destruct c; repeat split. Qed.

(** The row a confirmation writes: the flags as assigned, and the status
    [check_and_update_status] settles on. *)
Lemma confirmed_ride_fields c ride_id r db :
  let r1 := set_flag c r in
  let r' := confirmed_ride c ride_id r db in
  driver_started r' = driver_started r1 /\
  passenger_started r' = passenger_started r1 /\
  driver_ended r' = driver_ended r1 /\
  passenger_ended r' = passenger_ended r1 /\
  ride_status r' =
    if driver_started r1 && passenger_started r1
       && bool_decide (ride_status r1 = created) then started
    else if driver_ended r1 && passenger_ended r1
            && bool_decide (ride_status r1 = started) then completed
    else ride_status r1.
Proof.
  intros r1 r'. subst r'. unfold confirmed_ride. cbv zeta. fold r1.
  rewrite check_and_update_status_eq.
  destruct (Ride_save_fst ride_id r1 db) as (_ & _ & _ & Est & Eds & Eps & Ede & Epe).
  set (r2 := (Ride_save ride_id r1 db).1) in *. clearbody r2.
  rewrite Est, Eds, Eps, Ede, Epe.
  destruct (_ && _ && _); [| destruct (_ && _ && _)]; cbn [fst snd].
  - match goal with |- context [Ride_save ?i ?x ?d] =>
      destruct (Ride_save_fst i x d) as (_ & _ & _ & Est' & Eds' & Eps' & Ede' & Epe') end.
    cbn in *. repeat split; congruence.
  - match goal with |- context [Ride_save ?i ?x ?d] =>
      destruct (Ride_save_fst i x d) as (_ & _ & _ & Est' & Eds' & Eps' & Ede' & Epe') end.
    cbn in *. repeat split; congruence.
  - repeat split; congruence.
Qed.

Lemma confirmed_ride_forward c ride_id r db :
  forward_step (ride_status r) (ride_status (confirmed_ride c ride_id r db)).
Proof.
  destruct (confirmed_ride_fields c ride_id r db) as (_ & _ & _ & _ & E).
  cbv zeta in E. rewrite E. clear E.
  destruct (set_flag_fields c r) as (-> & _).
  generalize (driver_started (set_flag c r)) (passenger_started (set_flag c r))
             (driver_ended (set_flag c r)) (passenger_ended (set_flag c r)).
  intros ds ps de pe. unfold forward_step.
  destruct (ride_status r), ds, ps, de, pe; cbn; auto.
Qed.

Lemma forward_step_rank s s' :
  forward_step s s' -> status_rank s <= status_rank s'.
Proof. intros [-> | [[-> ->] | [-> ->]]]; cbn; lia. Qed.

(** One confirmation call moves any ride's status by at most one step. *)
Lemma confirm_status_step c ride_id' req db ride_id s :
  status_of ride_id db = Some s ->
  exists s', status_of ride_id (db_after (confirm c ride_id' req db)) = Some s' /\
             forward_step s s'.
Proof.
  intros Hs.
  destruct (confirm_db c ride_id' req db) as [-> | (ride & Hr & _ & _ & ->)].
  { exists s. split; [exact Hs | left; reflexivity]. }
  rewrite confirm_effect_eq. unfold status_of in *. cbn.
  rewrite lookup_insert. case_decide as E.
  - subst ride_id'. rewrite Hr in Hs. injection Hs as <-.
    eexists. split; [reflexivity | apply confirmed_ride_forward].
  - exists s. split; [exact Hs | left; reflexivity].
Qed.

Lemma confirm_all_app calls1 calls2 db :
  confirm_all (calls1 ++ calls2) db = confirm_all calls2 (confirm_all calls1 db).
Proof.
  revert db. induction calls1 as [| [[c i] req] rest IH]; intros db; [reflexivity |].
  cbn. apply IH.
Qed.

Lemma confirm_all_rank calls db ride_id s :
  status_of ride_id db = Some s ->
  exists s', status_of ride_id (confirm_all calls db) = Some s' /\
             status_rank s <= status_rank s'.
Proof.
  revert db s. induction calls as [| [[c i] req] rest IH]; intros db s Hs.
  { exists s. split; [exact Hs | lia]. }
  destruct (confirm_status_step c i req db ride_id s Hs) as (s1 & Hs1 & Hstep).
  destruct (IH _ _ Hs1) as (s' & Hs' & Hle).
  exists s'. split; [exact Hs' |].
  apply forward_step_rank in Hstep. lia.
Qed.

Lemma completed_after_started calls db ride_id :
  status_of ride_id db = Some created ->
  status_of ride_id (confirm_all calls db) = Some completed ->
  exists before rest,
    calls = (before ++ rest)%list /\
    status_of ride_id (confirm_all before db) = Some started.
Proof.
  revert db. induction calls as [| [[c i] req] rest IH]; intros db Hs Hend.
  { cbn in Hend. congruence. }
  destruct (confirm_status_step c i req db ride_id created Hs) as (s1 & Hs1 & Hstep).
  destruct Hstep as [-> | [[_ ->] | [E _]]]; [| | discriminate E].
  - destruct (IH _ Hs1 Hend) as (before & after & -> & Hb).
    exists ((c, i, req) :: before), after. split; [reflexivity | exact Hb].
  - exists [(c, i, req)], rest. split; [reflexivity | exact Hs1].
Qed.

(** C3: for every ride and every sequence of confirmation calls, each call
    leaves the status where it was or moves it one step along Created ->
    Started -> Completed (so never backward, and never from Created to
    Completed in one call); over a sequence the status never goes back; and
    a sequence that takes a Created ride to Completed has a prefix after
    which the ride is Started. *)
Theorem ride_status_only_moves_forward calls db ride_id s :
  status_of ride_id db = Some s ->
  (forall c ride_id' req,
     exists s', status_of ride_id (db_after (confirm c ride_id' req db)) = Some s' /\
                forward_step s s') /\
  (exists s', status_of ride_id (confirm_all calls db) = Some s' /\
              status_rank s <= status_rank s') /\
  (s = created ->
   status_of ride_id (confirm_all calls db) = Some completed ->
   exists before rest,
     calls = (before ++ rest)%list /\
     status_of ride_id (confirm_all before db) = Some started).
Proof.
  intros Hs. split; [| split].
  - intros c i req. apply confirm_status_step, Hs.
  - apply confirm_all_rank, Hs.
  - intros ->. apply completed_after_started, Hs.
Qed.

(** Alice and Bob confirm the start and then the end of their ride. *)
Lemma ride_status_only_moves_forward_witness :
  let db := Sample.joined_by_bob "2" in
  status_of 1 db = Some created /\
  status_of 1 (confirm_all (Sample.full_trip 1 2 1) db) = Some completed /\
  exists before rest,
    Sample.full_trip 1 2 1 = (before ++ rest)%list /\
    status_of 1 (confirm_all before db) = Some started.
Proof.
  cbv zeta. split; [reflexivity |]. split; [reflexivity |].
  exact (proj2 (proj2 (ride_status_only_moves_forward (Sample.full_trip 1 2 1)
                         (Sample.joined_by_bob "2") 1 created eq_refl))
           eq_refl eq_refl).
Defined.

(** ** Confirmations take effect once *)

Lemma confirm_applies c ride_id uid u ride fields clock db :
  users db !! uid = Some u -> rides db !! ride_id = Some ride ->
  has_role c uid ride_id ride db = true ->
  ride_status ride = status_needed c -> flag_of c ride = false ->
  db_after (confirm c ride_id (post uid fields clock) db) =
    set_rides (<[ride_id := confirmed_ride c ride_id ride db]> (rides db)) db.
Proof.
  intros Hu Hr Hrole Hst Hf.
  destruct (confirm_post c ride_id uid u ride (post uid fields clock) db
              eq_refl eq_refl Hu Hr)
    as [(Hn & _) | [(_ & [Hn | Hn] & _) | (_ & _ & _ & msgs & ->)]];
    [congruence | congruence | congruence |].
  cbn. apply confirm_effect_eq.
Qed.

Lemma confirm_refused c ride_id uid u ride fields clock db :
  users db !! uid = Some u -> rides db !! ride_id = Some ride ->
  flag_of c ride = true \/ ride_status ride <> status_needed c ->
  let o := confirm c ride_id (post uid fields clock) db in
  db_after o = db /\ flashed o = [] /\
  exists msg, response o =
    json_error msg (if has_role c uid ride_id ride db then 400 else 403).
Proof.
  intros Hu Hr Hbad o. subst o.
  destruct (confirm_post c ride_id uid u ride (post uid fields clock) db
              eq_refl eq_refl Hu Hr)
    as [(Hn & msg & ->) | [(Hy & _ & msg & ->) | (_ & Hst & Hf & _)]].
  - rewrite Hn. cbn. eauto.
  - rewrite Hy. cbn. eauto.
  - destruct Hbad; congruence.
Qed.

(** The second of two start confirmations starts the ride. *)
Lemma second_start_confirmation c1 c2 ride_id ride db u1 u2 i1 i2 f1 t1 f2 t2 :
  (c1 = confirmDriverStart /\ c2 = confirmPassengerStart) \/
  (c1 = confirmPassengerStart /\ c2 = confirmDriverStart) ->
  rides db !! ride_id = Some ride ->
  users db !! i1 = Some u1 -> users db !! i2 = Some u2 ->
  has_role c1 i1 ride_id ride db = true ->
  has_role c2 i2 ride_id ride db = true ->
  ride_status ride = created ->
  driver_started ride = false -> passenger_started ride = false ->
  let db1 := confirm_all [(c1, ride_id, post i1 f1 t1)] db in
  let db2 := confirm_all [(c1, ride_id, post i1 f1 t1); (c2, ride_id, post i2 f2 t2)] db in
  status_of ride_id db1 = Some created /\
  status_of ride_id db2 = Some started /\
  users db2 = users db.
Proof.
  intros Hc Hr Hu1 Hu2 Hr1 Hr2 Hst Hds Hps db1 db2.
  assert (Hf1 : flag_of c1 ride = false) by (destruct Hc as [[-> _] | [-> _]]; assumption).
  assert (Hn1 : ride_status ride = status_needed c1)
    by (destruct Hc as [[-> _] | [-> _]]; assumption).
  assert (E1 : db1 = set_rides (<[ride_id := confirmed_ride c1 ride_id ride db]> (rides db)) db)
    by (subst db1; cbn; eapply confirm_applies; eassumption).
  destruct (confirmed_ride_fields c1 ride_id ride db) as (Eds & Eps & _ & _ & Est).
  destruct (confirmed_ride_seats c1 ride_id ride db) as (_ & _ & Ecr).
  set (ride1 := confirmed_ride c1 ride_id ride db) in *. clearbody ride1.
  cbv zeta in Eds, Eps, Est.
  assert (Hr' : rides db1 !! ride_id = Some ride1)
    by (rewrite E1; cbn; apply lookup_insert_eq).
  assert (Hst1 : ride_status ride1 = created /\ flag_of c2 ride1 = false /\
                 flag_of c1 ride1 = true).
  { destruct Hc as [[-> ->] | [-> ->]]; cbn in *;
      rewrite Hst in Est; rewrite ?Hds, ?Hps in *; cbn in Est;
      rewrite ?andb_false_r in Est; cbn in Est;
      repeat split; try assumption;
      destruct (driver_ended ride && passenger_ended ride); assumption. }
  destruct Hst1 as (Hst1 & Hf2 & Hf1').
  assert (Hrole2 : has_role c2 i2 ride_id ride1 db1 = true).
  { rewrite E1. destruct Hc as [[-> ->] | [-> ->]]; unfold has_role in *;
      [exact Hr2 | rewrite Ecr; exact Hr2]. }
  assert (Hu2' : users db1 !! i2 = Some u2) by (rewrite E1; exact Hu2).
  assert (Hn2 : ride_status ride1 = status_needed c2)
    by (rewrite Hst1; destruct Hc as [[_ ->] | [_ ->]]; reflexivity).
  assert (E2 : db2 = set_rides (<[ride_id := confirmed_ride c2 ride_id ride1 db1]> (rides db1)) db1).
  { subst db2. change (confirm_all [(c1, ride_id, post i1 f1 t1); (c2, ride_id, post i2 f2 t2)] db)
      with (db_after (confirm c2 ride_id (post i2 f2 t2) db1)).
    exact (confirm_applies c2 ride_id i2 u2 ride1 f2 t2 db1 Hu2' Hr' Hrole2 Hn2 Hf2). }
  destruct (confirmed_ride_fields c2 ride_id ride1 db1) as (_ & _ & _ & _ & Est2).
  cbv zeta in Est2.
  set (ride2 := confirmed_ride c2 ride_id ride1 db1) in *. clearbody ride2.
  split; [| split].
  - unfold status_of. rewrite Hr'. cbn. congruence.
  - unfold status_of. rewrite E2. cbn. rewrite lookup_insert_eq. cbn. rewrite Est2.
    destruct Hc as [[-> ->] | [-> ->]]; cbn in *;
      rewrite ?Hf1', ?Hf2, Hst1; cbn; reflexivity.
  - rewrite E2, E1. reflexivity.
Qed.

(** Once a ride is Started, every further start confirmation is refused. *)
Lemma start_confirmation_after_start c ride_id req db :
  status_of ride_id db = Some started -> status_needed c = created ->
  db_after (confirm c ride_id req db) = db /\
  (forall uid u fields clock,
     req = post uid fields clock -> users db !! uid = Some u ->
     exists msg code,
       response (confirm c ride_id req db) = json_error msg code /\
       (code = 400 \/ code = 403)).
Proof.
  intros Hs Hc. unfold status_of in Hs.
  destruct (rides db !! ride_id) as [ride |] eqn:Hr; [| discriminate].
  cbn in Hs. injection Hs as Hs.
  split.
  - destruct (confirm_db c ride_id req db) as [E | (ride' & Hr' & Hst & _)];
      [exact E | congruence].
  - intros uid u fields clock -> Hu.
    destruct (confirm_refused c ride_id uid u ride fields clock db Hu Hr)
      as (_ & _ & msg & E); [right; congruence |].
    rewrite E. destruct (has_role _ _ _ _ _); eauto.
Qed.

(** C4: a confirmation call whose flag is already true, or made while the
    ride's status is not the one it needs (Created for the start
    confirmations, Started for the end ones), is refused with an error
    answer and leaves the database, hence the status and the four flags, as
    they were; the answer is the 400 of a conflict or wrong state for a
    caller who holds the role, and the 403 that precedes it for one who does
    not.  When driver and passenger both confirm the start, in either order,
    the ride is still Created after the first call and Started after the
    second; from then on every start confirmation is refused and the
    database, with its Started status, stays as it is. *)
Theorem confirmations_take_effect_once db ride_id ride :
  rides db !! ride_id = Some ride ->
  (forall c uid u fields clock,
     users db !! uid = Some u ->
     flag_of c ride = true \/ ride_status ride <> status_needed c ->
     let o := confirm c ride_id (post uid fields clock) db in
     db_after o = db /\ flashed o = [] /\
     exists msg, response o =
       json_error msg (if has_role c uid ride_id ride db then 400 else 403)) /\
  (forall driver passenger ud up f1 t1 f2 t2,
     users db !! driver = Some ud -> users db !! passenger = Some up ->
     creator ride = driver -> passenger_exists ride_id passenger db = true ->
     ride_status ride = created ->
     driver_started ride = false -> passenger_started ride = false ->
     let d := (confirmDriverStart, ride_id, post driver f1 t1) in
     let p := (confirmPassengerStart, ride_id, post passenger f2 t2) in
     (status_of ride_id (confirm_all [d] db) = Some created /\
      status_of ride_id (confirm_all [d; p] db) = Some started /\
      status_of ride_id (confirm_all [p] db) = Some created /\
      status_of ride_id (confirm_all [p; d] db) = Some started) /\
     forall both, both = [d; p] \/ both = [p; d] ->
       forall c req, status_needed c = created ->
         let db2 := confirm_all both db in
         db_after (confirm c ride_id req db2) = db2 /\
         status_of ride_id (db_after (confirm c ride_id req db2)) = Some started /\
         (forall uid u fields clock,
            req = post uid fields clock -> users db !! uid = Some u ->
            exists msg code,
              response (confirm c ride_id req db2) = json_error msg code /\
              (code = 400 \/ code = 403))).
Proof.
  intros Hr. split.
  { intros c uid u fields clock Hu Hbad.
    exact (confirm_refused c ride_id uid u ride fields clock db Hu Hr Hbad). }
  intros driver passenger ud up f1 t1 f2 t2 Hud Hup Hcr Hpe Hst Hds Hps d p.
  assert (Hrd : has_role confirmDriverStart driver ride_id ride db = true)
    by (cbn; apply bool_decide_eq_true; exact Hcr).
  assert (Hrp : has_role confirmPassengerStart passenger ride_id ride db = true)
    by exact Hpe.
  destruct (second_start_confirmation confirmDriverStart confirmPassengerStart
              ride_id ride db ud up driver passenger f1 t1 f2 t2
              (or_introl (conj eq_refl eq_refl)) Hr Hud Hup Hrd Hrp Hst Hds Hps)
    as (Hd1 & Hd2 & Hdu).
  destruct (second_start_confirmation confirmPassengerStart confirmDriverStart
              ride_id ride db up ud passenger driver f2 t2 f1 t1
              (or_intror (conj eq_refl eq_refl)) Hr Hup Hud Hrp Hrd Hst Hds Hps)
    as (Hp1 & Hp2 & Hpu).
  split; [repeat split; assumption |].
  intros both Hboth c req Hc db2.
  assert (Hs2 : status_of ride_id db2 = Some started /\ users db2 = users db)
    by (subst db2; destruct Hboth as [-> | ->]; split; assumption).
  destruct Hs2 as (Hs2 & Hu2).
  destruct (start_confirmation_after_start c ride_id req db2 Hs2 Hc) as (E & Hresp).
  split; [exact E |]. split; [rewrite E; exact Hs2 |].
  intros uid u fields clock Hreq Hu. apply (Hresp uid u fields clock Hreq).
  rewrite Hu2. exact Hu.
Qed.

(** Alice and Bob on Alice's ride: either order starts it on the second
    call, and Bob's repeated confirmation is then refused. *)
Lemma confirmations_take_effect_once_witness :
  let db := Sample.joined_by_bob "2" in
  let d := (confirmDriverStart, 1, post 1 ∅ 10) in
  let p := (confirmPassengerStart, 1, post 2 ∅ 11) in
  (exists ride, rides db !! 1 = Some ride /\ ride_status ride = created) /\
  (status_of 1 (confirm_all [d] db) = Some created /\
   status_of 1 (confirm_all [d; p] db) = Some started /\
   status_of 1 (confirm_all [p] db) = Some created /\
   status_of 1 (confirm_all [p; d] db) = Some started) /\
  db_after (confirm confirmPassengerStart 1 (post 2 ∅ 12) (confirm_all [d; p] db))
    = confirm_all [d; p] db.
Proof.
  cbv zeta.
  pose proof (confirmations_take_effect_once (Sample.joined_by_bob "2") 1
                (mkRide "Campus" "Downtown" 20 510 "car_petrol" "KL07AB1234"
                   12%float 2 0 1 false false false false created) eq_refl)
    as [_ H].
  specialize (H 1 2 Sample.alice Sample.bob ∅ 10 ∅ 11
                eq_refl eq_refl eq_refl eq_refl eq_refl eq_refl eq_refl).
  cbv zeta in H. destruct H as [Horder Hafter].
  split; [eexists; split; reflexivity |].
  split; [exact Horder |].
  exact (proj1 (Hafter _ (or_introl eq_refl) confirmPassengerStart
                  (post 2 ∅ 12) eq_refl)).
Defined.

(** ** Leaving a ride *)

Lemma join_records_existsb ride_id uid l :
  existsb (joined ride_id uid) l = false <-> join_records ride_id uid l = 0%nat.
Proof.
  induction l as [| p l IH]; cbn; [tauto |].
  destruct (joined ride_id uid p); cbn; [split; [discriminate | lia] | exact IH].
Qed.

Lemma join_records_exists ride_id uid db :
  passenger_exists ride_id uid db = false <->
  join_records ride_id uid (passengers db) = 0%nat.
Proof. apply join_records_existsb. Qed.

Lemma join_records_app ride_id uid l p :
  join_records ride_id uid (l ++ [p]) =
  (join_records ride_id uid l + (if joined ride_id uid p then 1 else 0))%nat.
Proof. induction l as [| q l IH]; cbn; [lia |]. rewrite IH. lia. Qed.

Lemma join_records_remove_first ride_id uid l :
  join_records ride_id uid (remove_first (joined ride_id uid) l) =
  (join_records ride_id uid l - 1)%nat.
Proof.
  induction l as [| q l IH]; cbn; [reflexivity |].
  destruct (joined ride_id uid q) eqn:E; cbn; [lia |].
  rewrite E, IH. lia.
Qed.

Lemma join_records_remove_first_le ride_id uid ride_id' uid' l :
  (join_records ride_id uid (remove_first (joined ride_id' uid') l)
   <= join_records ride_id uid l)%nat.
Proof.
  induction l as [| q l IH]; cbn; [lia |].
  destruct (joined ride_id' uid' q); cbn; lia.
Qed.

Lemma joined_same ride_id uid ride_id' uid' p :
  joined ride_id uid p = true -> joined ride_id' uid' p = true ->
  ride_id = ride_id' /\ uid = uid'.
Proof.
  unfold joined. intros H1 H2.
  apply andb_prop in H1 as [? ?]. apply andb_prop in H2 as [? ?]. lia.
Qed.

Lemma unique_same_passengers db db' :
  passengers db' = passengers db -> unique_together db -> unique_together db'.
Proof. unfold unique_together. intros ->. auto. Qed.

Lemma unique_join db p :
  passenger_exists (rp_ride p) (rp_user p) db = false ->
  unique_together db ->
  forall db', passengers db' = (passengers db ++ [p])%list -> unique_together db'.
Proof.
  intros Hno Hu db' E ride_id uid. rewrite E, join_records_app.
  destruct (joined ride_id uid p) eqn:Hj; [| specialize (Hu ride_id uid); lia].
  assert (ride_id = rp_ride p /\ uid = rp_user p) as [-> ->].
  { unfold joined in Hj. apply andb_prop in Hj as [? ?]. lia. }
  apply join_records_exists in Hno. lia.
Qed.

Lemma unique_leave db ride_id uid :
  unique_together db ->
  forall db', passengers db' = remove_first (joined ride_id uid) (passengers db) ->
  unique_together db'.
Proof.
  intros Hu db' E i j. rewrite E.
  pose proof (join_records_remove_first_le i j ride_id uid (passengers db)).
  specialize (Hu i j). lia.
Qed.

Section Leaving.

Variable float_of_string : string -> option float.
Variable int_of_string : string -> option Z.
Variable strptime_date : string -> option Z.
Variable strptime_time : string -> option Z.

Local Abbreviation create_ride' :=
  (create_ride float_of_string int_of_string strptime_date strptime_time).
Local Abbreviation update_location' := (update_location float_of_string int_of_string).
Local Abbreviation urlpatterns' :=
  (urlpatterns float_of_string int_of_string strptime_date strptime_time).
Local Abbreviation serve' :=
  (serve float_of_string int_of_string strptime_date strptime_time).

Lemma confirm_unique c ride_id req db :
  unique_together db -> unique_together (db_after (confirm c ride_id req db)).
Proof.
  intros Hu. destruct (confirm_db c ride_id req db) as [-> | (ride & _ & _ & _ & ->)];
    [exact Hu |].
  rewrite confirm_effect_eq. exact Hu.
Qed.

Lemma urlpatterns_unique r req db :
  unique_together db -> unique_together (db_after (urlpatterns' r req db)).
Proof.
  intros Hu. destruct r; cbn.
  - destruct (create_ride_db float_of_string int_of_string strptime_date
                strptime_time req db) as [-> | (r & _ & _ & ->)]; [exact Hu |].
    eapply unique_same_passengers; [| exact Hu]. reflexivity.
  - destruct (join_ride_db ride_id req db)
      as [-> | (uid & ride & p & _ & _ & Hp & Hq & Hno & ->)]; [exact Hu |].
    subst. eapply unique_join; [exact Hno | exact Hu | reflexivity].
  - unfold cancel_ride.
    destruct (leave_body_db "dashboard" ride_id req db)
      as [-> | (uid & ride & p & _ & _ & ->)]; [exact Hu |].
    eapply unique_leave; [exact Hu | reflexivity].
  - unfold leave_ride.
    destruct (leave_body_db "rides_list" ride_id req db)
      as [-> | (uid & ride & p & _ & _ & ->)]; [exact Hu |].
    eapply unique_leave; [exact Hu | reflexivity].
  - exact (confirm_unique confirmDriverStart ride_id req db Hu).
  - exact (confirm_unique confirmPassengerStart ride_id req db Hu).
  - exact (confirm_unique confirmDriverEnd ride_id req db Hu).
  - exact (confirm_unique confirmPassengerEnd ride_id req db Hu).
  - destruct (update_location_db float_of_string int_of_string req db) as [m ->].
    exact Hu.
  - rewrite get_location_db. exact Hu.
  - destruct (stop_location_sharing_db req db) as [m ->]. exact Hu.
Qed.

Lemma serve_unique calls db :
  unique_together db -> unique_together (serve' calls db).
Proof.
  revert db. induction calls as [| [r req] rest IH]; intros db Hu; [exact Hu |].
  cbn. apply IH, urlpatterns_unique, Hu.
Qed.

Lemma unique_fresh us : unique_together (fresh_db us).
Proof. intros i j. cbn. lia. Qed.

Lemma leave_body_post back ride_id ride uid u fields clock db :
  users db !! uid = Some u -> rides db !! ride_id = Some ride ->
  leave_body back ride_id (post uid fields clock) db =
    match passenger_first ride_id uid db with
    | None => reply (redirect back None)
                    [(WARNING, "You have not joined this ride.")] db
    | Some _ =>
        reply (redirect back None) [(SUCCESS, "You have left the ride.")]
          (Ride_save ride_id (set_seats_available (seats_available ride + 1) ride)
             (set_passengers (remove_first (joined ride_id uid) (passengers db)) db)).2
    end.
Proof.
  intros Hu Hr. unfold leave_body, post.
  rewrite (login_required_ok _ _ _ uid u) by done.
  cbn. rewrite Hr. destruct (passenger_first ride_id uid db); [| reflexivity].
  rewrite (surjective_pairing (Ride_save _ _ _)). reflexivity.
Qed.

(** C5: for every ride and user, leaving ([leave_ride], and [cancel_ride]
    with the same body) fails with the not-joined warning, the database
    unchanged, when no join record exists for (user, ride); otherwise it
    deletes one join record of (user, ride) and adds exactly one to
    seats_available, total_seats unchanged.  In every database reached from
    registered users by serving requests, (user, ride) has at most one join
    record, so none is left after leaving, and seats_available never exceeds
    total_seats. *)
Theorem leave_ride_releases_one_seat back db ride_id ride uid u fields clock :
  users db !! uid = Some u ->
  rides db !! ride_id = Some ride ->
  let o := leave_body back ride_id (post uid fields clock) db in
  (passenger_exists ride_id uid db = false ->
     o = reply (redirect back None)
               [(WARNING, "You have not joined this ride.")] db) /\
  (passenger_exists ride_id uid db = true ->
     flashed o = [(SUCCESS, "You have left the ride.")] /\
     passengers (db_after o) = remove_first (joined ride_id uid) (passengers db) /\
     join_records ride_id uid (passengers (db_after o)) =
       (join_records ride_id uid (passengers db) - 1)%nat /\
     passenger_count ride_id (passengers (db_after o)) =
       passenger_count ride_id (passengers db) - 1 /\
     (unique_together db -> passenger_exists ride_id uid (db_after o) = false) /\
     exists ride',
       rides (db_after o) = <[ride_id := ride']> (rides db) /\
       seats_available ride' = seats_available ride + 1 /\
       total_seats ride' = total_seats ride) /\
  (cancel_ride = leave_body "dashboard" /\ leave_ride = leave_body "rides_list") /\
  (forall us calls i r,
     rides (serve' calls (fresh_db us)) !! i = Some r ->
     seats_available r <= total_seats r /\
     unique_together (serve' calls (fresh_db us))).
Proof.
  intros Hu Hr o. subst o. rewrite (leave_body_post back ride_id ride uid u fields clock db Hu Hr).
  split; [| split; [| split]].
  - intros Hno. apply passenger_first_none in Hno. rewrite Hno. reflexivity.
  - intros Hyes. apply passenger_exists_first in Hyes as [p Hp]. rewrite Hp.
    rewrite Ride_save_snd.
    match goal with |- context [Ride_save ?i ?x ?d] =>
      destruct (Ride_save_fst i x d) as (Ht' & Hs' & _) end. cbn in Ht', Hs'.
    set (r' := (Ride_save _ _ _).1) in *. clearbody r'. cbn.
    split; [reflexivity |]. split; [reflexivity |].
    split; [apply join_records_remove_first |].
    split; [apply remove_first_count with (p := p); exact Hp |].
    split.
    + intros Huniq. apply join_records_existsb.
      rewrite join_records_remove_first. specialize (Huniq ride_id uid). lia.
    + exists r'. repeat split; assumption.
  - split; reflexivity.
  - intros us calls i r Hi. split.
    + pose proof (ledger _ (serve_consistent float_of_string int_of_string
                              strptime_date strptime_time calls _
                              (consistent_fresh us)) i r Hi) as [H _]. lia.
    + apply serve_unique, unique_fresh.
Qed.

End Leaving.

(** Bob leaves Alice's two-seat ride: the seat is free again. *)
Lemma leave_ride_releases_one_seat_witness :
  let db := Sample.joined_by_bob "2" in
  let o := leave_ride 1 (post 2 ∅ 5) db in
  users db !! 2 = Some Sample.bob /\
  passenger_exists 1 2 db = true /\
  seats_available <$> rides db !! 1 = Some 0 /\
  seats_available <$> rides (db_after o) !! 1 = Some 1 /\
  passengers (db_after o) = remove_first (joined 1 2) (passengers db).
Proof.
  cbv zeta.
  pose proof (leave_ride_releases_one_seat Sample.decimal_float Sample.decimal
                Sample.decimal Sample.decimal "rides_list"
                (Sample.joined_by_bob "2") 1
                (mkRide "Campus" "Downtown" 20 510 "car_petrol" "KL07AB1234"
                   12%float 2 0 1 false false false false created)
                2 Sample.bob ∅ 5 eq_refl eq_refl) as (_ & H & _).
  cbv zeta in H. destruct (H eq_refl) as (_ & Hp & _).
  split; [reflexivity |]. split; [reflexivity |]. split; [reflexivity |].
  split; [reflexivity |]. exact Hp.
Defined.

(** ** Live locations *)

Section Locations.

Variable float_of_string : string -> option float.
Variable int_of_string : string -> option Z.

Local Abbreviation update_location' := (update_location float_of_string int_of_string).

(** [get_location] for a logged-in caller of an existing ride. *)
Lemma get_location_get target ride_id ride requester ru clock fields db :
  users db !! requester = Some ru -> rides db !! ride_id = Some ride ->
  get_location target ride_id (mkRequest GET (Some requester) fields clock) db =
    if negb (bool_decide (creator ride = requester)) then
      reply (json_error "Only ride creator can view locations" 403) [] db
    else
      match users db !! target with
      | None => reply (json_error "No User matches the given query." 500) [] db
      | Some passenger_user =>
          if negb (passenger_exists ride_id target db) then
            reply (json_error "User is not a passenger in this ride" 404) [] db
          else
            match live_locations db !! target with
            | Some location =>
                if (ll_ride location =? ride_id) && is_sharing location then
                  reply (JsonResponse
                           [("success", JBool true);
                            ("user_id", JInt target);
                            ("user_email", JStr (email passenger_user));
                            ("latitude", JFloat (latitude location));
                            ("longitude", JFloat (longitude location));
                            ("updated_at", JInt (updated_at location))] 200) [] db
                else
                  reply (json_error "Location not available or sharing disabled" 404)
                        [] db
            | None =>
                reply (json_error "Location not available or sharing disabled" 404)
                      [] db
            end
      end.
Proof.
  intros Hu Hr. unfold get_location.
  rewrite (login_required_ok _ _ _ requester ru) by done.
  rewrite require_http_methods_ok by (apply list_elem_of_singleton; reflexivity).
  rewrite Hr. reflexivity.
Qed.

(** A row with sharing switched off answers exactly as no row at all,
    whoever asks and however. *)
Lemma get_location_hides_unshared target ride_id req db m l :
  is_sharing l = false ->
  response (get_location target ride_id req
              (set_live_locations (<[target := l]> m) db)) =
  response (get_location target ride_id req
              (set_live_locations (delete target m) db)).
Proof.
  intros Hl. unfold get_location, login_required. cbn.
  destruct (session_user req ≫= _) as [[uid u] |]; [| reflexivity].
  unfold require_http_methods. destruct (bool_decide _); [| reflexivity]. cbn.
  destruct (rides db !! ride_id) as [ride |]; [| reflexivity].
  destruct (negb (bool_decide _)); [reflexivity |].
  destruct (users db !! target); [| reflexivity].
  unfold passenger_exists. cbn.
  destruct (negb _); [reflexivity |].
  rewrite lookup_insert_eq, lookup_delete_eq, Hl, andb_false_r. reflexivity.
Qed.

(** [update_location] for a logged-in caller who names an existing ride. *)
Lemma update_location_post uid u fields clock db s ride_id ride :
  users db !! uid = Some u ->
  fields !! "ride_id" = Some s -> PyStr.truthy s = true ->
  int_of_string s = Some ride_id -> rides db !! ride_id = Some ride ->
  update_location' (post uid fields clock) db =
    let lat := fields !! "latitude" in
    let lon := fields !! "longitude" in
    let sharing :=
      String.eqb (PyStr.lower (default "false" (fields !! "is_sharing"))) "true" in
    if negb (PyStr.truthy_opt lat && PyStr.truthy_opt lon) then
      reply (json_error "Missing required fields" 400) [] db
    else
      match lat ≫= float_of_string, lon ≫= float_of_string with
      | Some lat, Some lon =>
          if negb (passenger_exists ride_id uid db) then
            reply (json_error "User is not a passenger in this ride" 403) [] db
          else if PrimFloat.is_nan lat then
            reply (json_error
                     "NOT NULL constraint failed: rides_livelocation.latitude" 500) [] db
          else if PrimFloat.is_nan lon then
            reply (json_error
                     "NOT NULL constraint failed: rides_livelocation.longitude" 500) [] db
          else
            reply (JsonResponse
                     [("success", JBool true);
                      ("message", JStr "Location updated successfully");
                      ("latitude", JFloat lat);
                      ("longitude", JFloat lon);
                      ("updated_at", JInt clock)] 200) []
                  (set_live_locations
                     (<[uid := mkLiveLocation ride_id lat lon clock sharing]>
                        (live_locations db)) db)
      | _, _ => reply (json_error "Invalid coordinates" 400) [] db
      end.
Proof.
  intros Hu Hs Ht Hi Hr. unfold update_location, post.
  rewrite (login_required_ok _ _ _ uid u) by done.
  rewrite require_http_methods_ok by (apply list_elem_of_singleton; reflexivity).
  cbn. rewrite Hs. cbn. rewrite Ht, Hi. cbn.
  destruct (negb _); [reflexivity |].
  destruct (_ ≫= float_of_string) as [lat |]; [| reflexivity].
  destruct (_ ≫= float_of_string) as [lon |]; [| reflexivity].
  rewrite Hr. destruct (negb _); [reflexivity |].
  unfold LiveLocation_update_or_create. cbn.
  destruct (PrimFloat.is_nan lat); [reflexivity |].
  destruct (PrimFloat.is_nan lon); reflexivity.
Qed.

(** X1: [get_location] answers 403 to every logged-in requester who is
    not the ride's creator; asked by the creator about a registered target
    it answers 404 whenever the target has no LiveLocation row or a row with
    is_sharing = false; and the answer to any request is the same for such
    a row as for no row at all. *)
Theorem get_location_is_gated db ride_id ride :
  rides db !! ride_id = Some ride ->
  (forall requester ru target clock fields,
     users db !! requester = Some ru -> creator ride <> requester ->
     get_location target ride_id (mkRequest GET (Some requester) fields clock) db =
       reply (json_error "Only ride creator can view locations" 403) [] db) /\
  (forall requester ru target tu clock fields,
     users db !! requester = Some ru -> creator ride = requester ->
     users db !! target = Some tu ->
     match live_locations db !! target with
     | None => True
     | Some l => is_sharing l = false
     end ->
     exists msg,
       get_location target ride_id (mkRequest GET (Some requester) fields clock) db =
         reply (json_error msg 404) [] db) /\
  (forall target req m l,
     is_sharing l = false ->
     response (get_location target ride_id req
                 (set_live_locations (<[target := l]> m) db)) =
     response (get_location target ride_id req
                 (set_live_locations (delete target m) db))).
Proof.
  intros Hr. split; [| split].
  - intros requester ru target clock fields Hu Hne.
    rewrite (get_location_get target ride_id ride requester ru clock fields db Hu Hr).
    rewrite bool_decide_false by exact Hne. reflexivity.
  - intros requester ru target tu clock fields Hu He Ht Hrow.
    rewrite (get_location_get target ride_id ride requester ru clock fields db Hu Hr).
    rewrite bool_decide_true by exact He. cbn. rewrite Ht.
    destruct (negb _); [eauto |].
    destruct (live_locations db !! target) as [l |]; [| eauto].
    rewrite Hrow, andb_false_r. eauto.
  - intros target req m l Hl. apply get_location_hides_unshared, Hl.
Qed.

(** X2: [update_location] posted by a logged-in user who is not a passenger
    of the ride the form names never writes: the database is left as it
    was, the answer is an error, 403 once both coordinates are present and
    parse and the 400 of the earlier field checks otherwise. *)
Theorem update_location_refuses_non_passenger db ride_id ride uid u fields clock s :
  rides db !! ride_id = Some ride ->
  users db !! uid = Some u ->
  fields !! "ride_id" = Some s -> PyStr.truthy s = true ->
  int_of_string s = Some ride_id ->
  passenger_exists ride_id uid db = false ->
  let o := update_location' (post uid fields clock) db in
  db_after o = db /\
  (exists msg code, response o = json_error msg code /\ (code = 403 \/ code = 400)) /\
  (forall lat lon,
     fields !! "latitude" ≫= float_of_string = Some lat ->
     fields !! "longitude" ≫= float_of_string = Some lon ->
     PyStr.truthy_opt (fields !! "latitude") = true ->
     PyStr.truthy_opt (fields !! "longitude") = true ->
     response o = json_error "User is not a passenger in this ride" 403).
Proof.
  intros Hr Hu Hs Ht Hi Hno o. subst o.
  rewrite (update_location_post uid u fields clock db s ride_id ride Hu Hs Ht Hi Hr).
  cbv zeta. rewrite Hno. cbn.
  split; [| split].
  - destruct (negb _); [reflexivity |].
    destruct (_ ≫= float_of_string); [| reflexivity].
    destruct (_ ≫= float_of_string); reflexivity.
  - destruct (negb _); [eauto |].
    destruct (_ ≫= float_of_string); [| eauto].
    destruct (_ ≫= float_of_string); eauto.
  - intros lat lon Hlat Hlon Tlat Tlon. rewrite Tlat, Tlon, Hlat, Hlon. reflexivity.
Qed.

(** X3: [update_location] asks nothing of the ride's status: for every
    ride, whatever its status, and every user who is a passenger of it, a
    post with the ride's id and coordinates that parse to numbers (neither
    is a NaN, which the store would refuse) succeeds with 200 and writes
    the user's row, created or overwritten, under the user's key; no other
    row and no other table changes. *)
Theorem update_location_ignores_status db ride_id ride uid u fields clock s lat lon :
  rides db !! ride_id = Some ride ->
  users db !! uid = Some u ->
  passenger_exists ride_id uid db = true ->
  fields !! "ride_id" = Some s -> PyStr.truthy s = true ->
  int_of_string s = Some ride_id ->
  PyStr.truthy_opt (fields !! "latitude") = true ->
  PyStr.truthy_opt (fields !! "longitude") = true ->
  fields !! "latitude" ≫= float_of_string = Some lat ->
  fields !! "longitude" ≫= float_of_string = Some lon ->
  PrimFloat.is_nan lat = false ->
  PrimFloat.is_nan lon = false ->
  let o := update_location' (post uid fields clock) db in
  let sharing :=
    String.eqb (PyStr.lower (default "false" (fields !! "is_sharing"))) "true" in
  response o =
    JsonResponse [("success", JBool true);
                  ("message", JStr "Location updated successfully");
                  ("latitude", JFloat lat);
                  ("longitude", JFloat lon);
                  ("updated_at", JInt clock)] 200 /\
  live_locations (db_after o) =
    <[uid := mkLiveLocation ride_id lat lon clock sharing]> (live_locations db) /\
  (forall other, other <> uid ->
     live_locations (db_after o) !! other = live_locations db !! other) /\
  rides (db_after o) = rides db /\
  passengers (db_after o) = passengers db /\
  users (db_after o) = users db.
Proof.
  intros Hr Hu Hp Hs Ht Hi Tlat Tlon Hlat Hlon Nlat Nlon o sharing. subst o.
  rewrite (update_location_post uid u fields clock db s ride_id ride Hu Hs Ht Hi Hr).
  cbv zeta. rewrite Tlat, Tlon, Hlat, Hlon, Hp, Nlat, Nlon. cbn.
  split; [reflexivity |]. split; [reflexivity |].
  split; [| repeat split].
  intros other Hne. apply lookup_insert_ne. congruence.
Qed.

End Locations.

(** Dave is no passenger of Alice's ride: he may neither read Bob's
    location nor post his own. *)
Lemma get_location_is_gated_witness :
  let db := Sample.joined_by_bob "2" in
  (exists ride, rides db !! 1 = Some ride /\ creator ride = 1) /\
  get_location 2 1 (mkRequest GET (Some 4) ∅ 7) db =
    reply (json_error "Only ride creator can view locations" 403) [] db /\
  exists msg,
    get_location 2 1 (mkRequest GET (Some 1) ∅ 7) db =
      reply (json_error msg 404) [] db.
Proof.
  cbv zeta.
  pose proof (get_location_is_gated (Sample.joined_by_bob "2") 1
                (mkRide "Campus" "Downtown" 20 510 "car_petrol" "KL07AB1234"
                   12%float 2 0 1 false false false false created) eq_refl)
    as (H403 & H404 & _).
  split; [eexists; split; reflexivity |].
  split.
  - apply (H403 4 Sample.dave 2 7 ∅ eq_refl). discriminate.
  - exact (H404 1 Sample.alice 2 Sample.bob 7 ∅ eq_refl eq_refl eq_refl I).
Defined.

Lemma update_location_refuses_non_passenger_witness :
  let db := Sample.joined_by_bob "2" in
  let o := update_location Sample.decimal_float Sample.decimal
             (post 4 (Sample.location_form "1" "10" "76" "true") 9) db in
  passenger_exists 1 4 db = false /\
  db_after o = db /\
  response o = json_error "User is not a passenger in this ride" 403.
Proof.
  cbv zeta.
  pose proof (update_location_refuses_non_passenger Sample.decimal_float
                Sample.decimal (Sample.joined_by_bob "2") 1
                (mkRide "Campus" "Downtown" 20 510 "car_petrol" "KL07AB1234"
                   12%float 2 0 1 false false false false created)
                4 Sample.dave (Sample.location_form "1" "10" "76" "true") 9 "1"
                eq_refl eq_refl eq_refl eq_refl eq_refl eq_refl) as (Hdb & _ & H403).
  split; [reflexivity |]. split; [exact Hdb |].
  exact (H403 (float_of_Z 10) (float_of_Z 76) eq_refl eq_refl eq_refl eq_refl).
Defined.

(** Bob posts his position on a ride that is already completed. *)
Lemma update_location_ignores_status_witness :
  let db := confirm_all (Sample.full_trip 1 2 1) (Sample.joined_by_bob "2") in
  let o := update_location Sample.decimal_float Sample.decimal
             (post 2 (Sample.location_form "1" "10" "76" "TRUE") 30) db in
  status_of 1 db = Some completed /\
  live_locations (db_after o) !! 2 =
    Some (mkLiveLocation 1 (float_of_Z 10) (float_of_Z 76) 30 true).
Proof.
  cbv zeta. split; [reflexivity |].
  pose proof (update_location_ignores_status Sample.decimal_float Sample.decimal
                (confirm_all (Sample.full_trip 1 2 1) (Sample.joined_by_bob "2")) 1
                (mkRide "Campus" "Downtown" 20 510 "car_petrol" "KL07AB1234"
                   12%float 2 0 1 true true true true completed)
                2 Sample.bob (Sample.location_form "1" "10" "76" "TRUE") 30 "1"
                (float_of_Z 10) (float_of_Z 76)
                eq_refl eq_refl eq_refl eq_refl eq_refl eq_refl eq_refl eq_refl
                eq_refl eq_refl eq_refl eq_refl) as (_ & Hrow & _).
  cbv zeta in Hrow. rewrite Hrow. apply lookup_insert_eq.
Defined.

(** ** Stopping, reading back and moving a location *)

Lemma stop_location_sharing_post uid u fields clock db :
  users db !! uid = Some u ->
  stop_location_sharing (post uid fields clock) db =
    match live_locations db !! uid with
    | Some _ =>
        reply (JsonResponse [("success", JBool true);
                             ("message", JStr "Location sharing stopped")] 200) []
              (set_live_locations (delete uid (live_locations db)) db)
    | None =>
        reply (JsonResponse [("success", JBool true);
                             ("message", JStr "No active location sharing")] 200) [] db
    end.
Proof.
  intros Hu. unfold stop_location_sharing, post.
  rewrite (login_required_ok _ _ _ uid u) by done.
  rewrite require_http_methods_ok by (apply list_elem_of_singleton; reflexivity).
  reflexivity.
Qed.

(** X4: [stop_location_sharing] always answers 200 and removes the
    caller's LiveLocation row and nothing else: afterwards the caller has
    no row, every other user's row and every other table is as before, and
    a second stop changes nothing. *)
Theorem stop_location_sharing_is_idempotent uid u fields clock fields' clock' db :
  users db !! uid = Some u ->
  let o := stop_location_sharing (post uid fields clock) db in
  let o' := stop_location_sharing (post uid fields' clock') (db_after o) in
  (exists body, response o = JsonResponse body 200) /\
  live_locations (db_after o) = delete uid (live_locations db) /\
  live_locations (db_after o) !! uid = None /\
  (forall other, other <> uid ->
     live_locations (db_after o) !! other = live_locations db !! other) /\
  (users (db_after o) = users db /\ rides (db_after o) = rides db /\
   passengers (db_after o) = passengers db) /\
  db_after o' = db_after o /\
  response o' = JsonResponse [("success", JBool true);
                              ("message", JStr "No active location sharing")] 200.
Proof.
  intros Hu o o'.
  pose proof (stop_location_sharing_post uid u fields clock db Hu) as Ho.
  change (stop_location_sharing (post uid fields clock) db) with o in Ho.
  assert (Hd : live_locations (db_after o) = delete uid (live_locations db)).
  { rewrite Ho. destruct (live_locations db !! uid) eqn:E; cbn; [reflexivity |].
    symmetry. apply delete_id, E. }
  assert (Hf : users (db_after o) = users db /\ rides (db_after o) = rides db /\
               passengers (db_after o) = passengers db)
    by (rewrite Ho; destruct (live_locations db !! uid); repeat split).
  assert (Hn : live_locations (db_after o) !! uid = None)
    by (rewrite Hd; apply lookup_delete_eq).
  assert (Hu' : users (db_after o) !! uid = Some u)
    by (destruct Hf as (-> & _); exact Hu).
  pose proof (stop_location_sharing_post uid u fields' clock' (db_after o) Hu') as Ho'.
  change (stop_location_sharing (post uid fields' clock') (db_after o)) with o' in Ho'.
  rewrite Hn in Ho'.
  split; [rewrite Ho; destruct (live_locations db !! uid); eauto |].
  split; [exact Hd |]. split; [exact Hn |].
  split; [intros other Hne; rewrite Hd; apply lookup_delete_ne; congruence |].
  split; [exact Hf |].
  rewrite Ho'. split; reflexivity.
Qed.

Lemma stop_location_sharing_is_idempotent_witness :
  let db := Sample.joined_by_bob "2" in
  let o := stop_location_sharing (post 2 ∅ 3) db in
  users db !! 2 = Some Sample.bob /\
  db_after (stop_location_sharing (post 2 ∅ 4) (db_after o)) = db_after o.
Proof.
  cbv zeta. split; [reflexivity |].
  exact (proj1 (proj2 (proj2 (proj2 (proj2 (proj2
           (stop_location_sharing_is_idempotent 2 Sample.bob ∅ 3 ∅ 4
              (Sample.joined_by_bob "2") eq_refl))))))).
Defined.

Section ReadBack.

Variable float_of_string : string -> option float.
Variable int_of_string : string -> option Z.

Local Abbreviation update_location' := (update_location float_of_string int_of_string).

(** X5: what a passenger posts, the driver reads back.  After a passenger's
    [update_location] on a ride with coordinates that parse to numbers
    (neither is a NaN, which the store would refuse), [get_location] by that
    ride's creator returns 200 with exactly the posted coordinates and the
    post's clock when the posted is_sharing flag is 'true' in any letter
    case, and 404 otherwise; and since the row is the user's only one and
    now names this ride, the creator of any other ride gets 404 for this
    user. *)
Theorem get_location_reads_back_update db ride_id ride passenger pu driver du
    fields clock s lat lon fields' clock' :
  rides db !! ride_id = Some ride ->
  creator ride = driver ->
  users db !! driver = Some du ->
  users db !! passenger = Some pu ->
  passenger_exists ride_id passenger db = true ->
  fields !! "ride_id" = Some s -> PyStr.truthy s = true ->
  int_of_string s = Some ride_id ->
  PyStr.truthy_opt (fields !! "latitude") = true ->
  PyStr.truthy_opt (fields !! "longitude") = true ->
  fields !! "latitude" ≫= float_of_string = Some lat ->
  fields !! "longitude" ≫= float_of_string = Some lon ->
  PrimFloat.is_nan lat = false ->
  PrimFloat.is_nan lon = false ->
  let db1 := db_after (update_location' (post passenger fields clock) db) in
  let sharing :=
    String.eqb (PyStr.lower (default "false" (fields !! "is_sharing"))) "true" in
  get_location passenger ride_id (mkRequest GET (Some driver) fields' clock') db1 =
    (if sharing then
       reply (JsonResponse [("success", JBool true);
                            ("user_id", JInt passenger);
                            ("user_email", JStr (email pu));
                            ("latitude", JFloat lat);
                            ("longitude", JFloat lon);
                            ("updated_at", JInt clock)] 200) [] db1
     else
       reply (json_error "Location not available or sharing disabled" 404) [] db1) /\
  (forall other_id other_ride other_driver odu,
     other_id <> ride_id ->
     rides db !! other_id = Some other_ride ->
     creator other_ride = other_driver ->
     users db !! other_driver = Some odu ->
     exists msg,
       get_location passenger other_id
         (mkRequest GET (Some other_driver) fields' clock') db1 =
         reply (json_error msg 404) [] db1).
Proof.
  intros Hr Hc Hdu Hpu Hpe Hs Ht Hi Tlat Tlon Hlat Hlon Nlat Nlon db1 sharing.
  assert (E : db1 = set_live_locations
                      (<[passenger := mkLiveLocation ride_id lat lon clock sharing]>
                         (live_locations db)) db).
  { subst db1.
    rewrite (update_location_post float_of_string int_of_string passenger pu
               fields clock db s ride_id ride Hpu Hs Ht Hi Hr).
    cbv zeta. rewrite Tlat, Tlon, Hlat, Hlon, Hpe, Nlat, Nlon. reflexivity. }
  clearbody db1. subst db1. split.
  - rewrite (get_location_get passenger ride_id ride driver du clock' fields'
               (set_live_locations _ db) Hdu Hr).
    rewrite bool_decide_true by exact Hc. cbn. rewrite Hpu.
    unfold passenger_exists in *. cbn. rewrite Hpe. cbn.
    rewrite lookup_insert_eq. cbn. rewrite Z.eqb_refl. cbn.
    destruct sharing; reflexivity.
  - intros other_id other_ride other_driver odu Hne Hor Hoc Hou.
    rewrite (get_location_get passenger other_id other_ride other_driver odu
               clock' fields' (set_live_locations _ db) Hou Hor).
    rewrite bool_decide_true by exact Hoc. cbn. rewrite Hpu.
    destruct (negb _); [eauto |].
    rewrite lookup_insert_eq. cbn.
    destruct (Z.eqb_spec ride_id other_id) as [E | _]; [congruence |].
    cbn. eauto.
Qed.

End ReadBack.

(** Bob shares his position on Alice's ride and Alice reads it. *)
Lemma get_location_reads_back_update_witness :
  let db := Sample.joined_by_bob "2" in
  let db1 := db_after (update_location Sample.decimal_float Sample.decimal
                         (post 2 (Sample.location_form "1" "10" "76" "True") 9) db) in
  passenger_exists 1 2 db = true /\
  get_location 2 1 (mkRequest GET (Some 1) ∅ 12) db1 =
    reply (JsonResponse [("success", JBool true);
                         ("user_id", JInt 2);
                         ("user_email", JStr "bob@eco.com");
                         ("latitude", JFloat (float_of_Z 10));
                         ("longitude", JFloat (float_of_Z 76));
                         ("updated_at", JInt 9)] 200) [] db1.
Proof.
  cbv zeta. split; [reflexivity |].
  exact (proj1 (get_location_reads_back_update Sample.decimal_float Sample.decimal
                  (Sample.joined_by_bob "2") 1
                  (mkRide "Campus" "Downtown" 20 510 "car_petrol" "KL07AB1234"
                     12%float 2 0 1 false false false false created)
                  2 Sample.bob 1 Sample.alice
                  (Sample.location_form "1" "10" "76" "True") 9 "1"
                  (float_of_Z 10) (float_of_Z 76) ∅ 12
                  eq_refl eq_refl eq_refl eq_refl eq_refl eq_refl eq_refl eq_refl
                  eq_refl eq_refl eq_refl eq_refl eq_refl eq_refl)).
Defined.

(** ** Joins served one after the other *)

(** [join_ride] for a verified user's post on an existing ride. *)
Lemma join_ride_post ride_id ride uid u fields clock db :
  users db !! uid = Some u -> aadhaar_verified u = true ->
  rides db !! ride_id = Some ride ->
  join_ride ride_id (post uid fields clock) db =
    if bool_decide (creator ride = uid) then
      reply (redirect "rides_list" None)
            [(INFO, "You are the driver for this ride.")] db
    else if seats_available ride <=? 0 then
      reply (redirect "rides_list" None) [(WARNING, "No seats available.")] db
    else if passenger_exists ride_id uid db then
      reply (redirect "rides_list" None)
            [(INFO, "You have already joined this ride.")] db
    else if negb (PyStr.truthy (PyStr.strip (default "" (fields !! "pickup_point")))) then
      reply (render "rides/join_ride.html" (Some ride_id))
            [(ERROR, "Please enter a pickup point.")] db
    else
      reply (redirect "rides_list" None) [(SUCCESS, "Joined ride successfully!")]
        (set_passengers
           (passengers db ++
              [mkRidePassenger uid ride_id
                 (PyStr.strip (default "" (fields !! "pickup_point")))
                 (PyStr.strip (default "" (fields !! "pickup_notes")))])
           (Ride_save ride_id
              (set_seats_available (seats_available ride - 1) ride) db).2).
Proof.
  intros Hu Hv Hr. unfold join_ride, post.
  rewrite (login_required_ok _ _ _ uid u) by done.
  rewrite Hv, Hr. cbn.
  destruct (bool_decide (creator ride = uid)); [reflexivity |].
  destruct (seats_available ride <=? 0); [reflexivity |].
  destruct (passenger_exists ride_id uid db) eqn:He; [reflexivity |].
  unfold POST_get. cbn.
  destruct (negb _); [reflexivity |].
  rewrite (surjective_pairing (Ride_save _ _ _)).
  unfold RidePassenger_create. rewrite Ride_save_snd.
  unfold passenger_exists in *. cbn. rewrite He. reflexivity.
Qed.

(** A join that finds no seat leaves the database as it was. *)
Lemma join_ride_full ride_id ride uid fields clock db :
  rides db !! ride_id = Some ride -> seats_available ride <= 0 ->
  eligible db ride_id ride (uid, fields, clock) ->
  let o := join_ride ride_id (post uid fields clock) db in
  join_refused_no_seats o /\ db_after o = db.
Proof.
  intros Hr Hs ([u [Hu Hv]] & Hc & _ & _). cbv zeta.
  rewrite (join_ride_post _ _ _ _ _ _ _ Hu Hv Hr).
  rewrite bool_decide_false by exact Hc.
  rewrite (proj2 (Z.leb_le _ _)) by exact Hs. split; reflexivity.
Qed.

(** A join that finds a seat: one seat less, one record more. *)
Lemma join_ride_seated ride_id ride uid fields clock db :
  rides db !! ride_id = Some ride -> 0 < seats_available ride ->
  eligible db ride_id ride (uid, fields, clock) ->
  let o := join_ride ride_id (post uid fields clock) db in
  join_succeeded o /\
  users (db_after o) = users db /\
  (exists p, rp_user p = uid /\ rp_ride p = ride_id /\
             passengers (db_after o) = (passengers db ++ [p])%list) /\
  exists ride', rides (db_after o) !! ride_id = Some ride' /\
    seats_available ride' = seats_available ride - 1 /\
    creator ride' = creator ride.
Proof.
  intros Hr Hs ([u [Hu Hv]] & Hc & He & Hp). cbv zeta.
  rewrite (join_ride_post _ _ _ _ _ _ _ Hu Hv Hr).
  rewrite bool_decide_false by exact Hc.
  rewrite (proj2 (Z.leb_gt _ _)) by exact Hs.
  rewrite He, Hp. cbn [negb].
  rewrite Ride_save_snd.
  pose proof (Ride_save_fst ride_id
                (set_seats_available (seats_available ride - 1) ride) db) as Hf.
  cbv zeta in Hf.
  set (r' := (Ride_save _ _ _).1) in *. clearbody r'.
  destruct Hf as (_ & Hsa & Hcr & _).
  split; [reflexivity |]. split; [reflexivity |]. split.
  - eexists. split; [| split; [| reflexivity]]; reflexivity.
  - exists r'. cbn. rewrite lookup_insert_eq. split; [reflexivity |].
    split; [rewrite Hsa | rewrite Hcr]; destruct ride; reflexivity.
Qed.

Lemma final_db_cons db o os : final_db db (o :: os) = final_db (db_after o) os.
Proof.
  unfold final_db. rewrite fmap_cons.
  destruct os as [| o' os]; [reflexivity |].
  rewrite fmap_cons, last_cons_cons.
  destruct (last _) eqn:E; [reflexivity |].
  apply last_None in E. discriminate.
Qed.

(** Someone else's join leaves a user eligible. *)
Lemma eligible_after ride_id ride ride' db db' p uid fields clock :
  users db' = users db -> creator ride' = creator ride ->
  passengers db' = (passengers db ++ [p])%list -> rp_user p <> uid ->
  eligible db ride_id ride (uid, fields, clock) ->
  eligible db' ride_id ride' (uid, fields, clock).
Proof.
  intros Hu Hc Hp Hne (Hv & Hcr & He & Hpp).
  split; [rewrite Hu; exact Hv |]. split; [rewrite Hc; exact Hcr |].
  split; [| exact Hpp].
  unfold passenger_exists in *. rewrite Hp, existsb_app, He. cbn.
  unfold joined. destruct (Z.eqb_spec (rp_user p) uid) as [E | _]; [contradiction |].
  rewrite andb_false_r. reflexivity.
Qed.

(** X6: joins on one ride by distinct eligible users, served one after the
    other, fill the free seats in order of arrival: the first
    [seats_available] of them go through, every later one is told that no
    seat is left, and at the end the ride has as many seats less, and as many
    join records more, as joins went through. *)
Theorem serial_joins_fill_the_seats ride_id js : forall db ride,
  rides db !! ride_id = Some ride ->
  0 <= seats_available ride ->
  NoDup (map (fun j : UserId * gmap string string * Z => j.1.1) js) ->
  Forall (eligible db ride_id ride) js ->
  let k := Z.to_nat (seats_available ride) in
  let os := serve_joins ride_id js db in
  Forall join_succeeded (take k os) /\
  Forall join_refused_no_seats (drop k os) /\
  exists ride', rides (final_db db os) !! ride_id = Some ride' /\
    seats_available ride' =
      seats_available ride - Z.of_nat (Nat.min k (length js)) /\
    passenger_count ride_id (passengers (final_db db os)) =
      passenger_count ride_id (passengers db) + Z.of_nat (Nat.min k (length js)).
Proof.
  induction js as [| [[uid fields] clock] js IH]; intros db ride Hr Hs Hnd Hel; cbv zeta.
  - cbn [serve_joins length]. rewrite take_nil, drop_nil, Nat.min_0_r.
    split; [constructor |]. split; [constructor |].
    exists ride. unfold final_db. cbn. split; [exact Hr |]. split; lia.
  - cbn [serve_joins]. rewrite final_db_cons.
    apply Forall_cons in Hel as [Hj Hel].
    cbn [map] in Hnd. apply NoDup_cons in Hnd as [Hnin Hnd].
    destruct (Z.eq_dec (seats_available ride) 0) as [Hz | Hnz].
    + destruct (join_ride_full _ _ _ _ _ _ Hr ltac:(lia) Hj) as [Hrf Hdb].
      cbv zeta in Hrf, Hdb. rewrite Hdb.
      destruct (IH db ride Hr Hs Hnd Hel) as (_ & Hd & ride' & Hr' & Hs' & Hc').
      cbv zeta in Hd, Hr', Hs', Hc'. rewrite Hz in *. cbn in Hd. cbn [Z.to_nat].
      cbn in Hs', Hc'. cbn [take drop Nat.min length].
      split; [constructor |]. split; [constructor; assumption |].
      exists ride'. split; [exact Hr' |]. split; cbn; lia.
    + destruct (join_ride_seated _ _ _ _ _ _ Hr ltac:(lia) Hj)
        as (Hok & Hus & (p & Hpu & Hpr & Hps) & ride1 & Hr1 & Hs1 & Hc1).
      cbv zeta in Hok, Hus, Hps, Hr1.
      set (o := join_ride ride_id (post uid fields clock) db) in *. clearbody o.
      assert (Hel1 : Forall (eligible (db_after o) ride_id ride1) js).
      { apply Forall_forall. intros [[uid' f'] c'] Hin.
        apply (eligible_after ride_id ride ride1 db (db_after o) p); try assumption.
        - rewrite Hpu. intros ->. apply Hnin.
          apply list_elem_of_fmap. exists (uid', f', c'). split; [reflexivity | exact Hin].
        - rewrite Forall_forall in Hel. exact (Hel _ Hin). }
      destruct (IH (db_after o) ride1 Hr1 ltac:(lia) Hnd Hel1)
        as (Ht & Hd & ride' & Hr' & Hs' & Hc').
      cbv zeta in Ht, Hd, Hr', Hs', Hc'.
      replace (Z.to_nat (seats_available ride))
        with (S (Z.to_nat (seats_available ride1))) by lia.
      cbn [take drop length Nat.min].
      split; [constructor; assumption |]. split; [exact Hd |].
      exists ride'. split; [exact Hr' |].
      rewrite Hps, passenger_count_app, Hpr, Z.eqb_refl in Hc'.
      split; lia.
Qed.

(** Alice offers three seats, her own among them; Bob, Dave and Erin ask to
    join in that order: Bob and Dave get a seat, Erin does not. *)
Lemma serial_joins_fill_the_seats_witness :
  let db := Sample.offered "3" in
  let js := [(2, Sample.pickup_form "Main gate", 1);
             (4, Sample.pickup_form "Library", 2);
             (5, Sample.pickup_form "Hostel", 3)] in
  let os := serve_joins 1 js db in
  Forall join_succeeded (take 2 os) /\
  Forall join_refused_no_seats (drop 2 os) /\
  exists ride', rides (final_db db os) !! 1 = Some ride' /\
    seats_available ride' = 2 - 2 /\
    passenger_count 1 (passengers (final_db db os)) =
      passenger_count 1 (passengers db) + 2.
Proof.
  cbv zeta.
  refine (serial_joins_fill_the_seats 1
           [(2, Sample.pickup_form "Main gate", 1);
            (4, Sample.pickup_form "Library", 2);
            (5, Sample.pickup_form "Hostel", 3)]
           (Sample.offered "3")
           (mkRide "Campus" "Downtown" 20 510 "car_petrol" "KL07AB1234"
              12%float 3 2 1 false false false false created)
           eq_refl _ _ _).
  - simpl. lia.
  - apply (bool_decide_unpack _). vm_compute. exact I.
  - repeat constructor; try (intros H; discriminate H);
      eexists; split; reflexivity.
Defined.
